(** * keystoneauth.access: the access-token model, embedded and verified

    A shallow embedding of [keystoneauth/access.py]: the factory [create],
    the base class [AccessInfo] and its two concrete subclasses
    [AccessInfoV2] and [AccessInfoV3].  An [AccessInfo] is a Python [dict]
    subclass, so an instance is modelled by its dictionary contents (a
    finite map from string keys to decoded JSON values) together with the
    [service_catalog] attribute set by the constructor.  Python exceptions
    are modelled by an error monad. *)

From Stdlib Require Import ZArith String Ascii List Bool Lia.
From stdpp Require Import base option gmap strings fin_maps.

Set Warnings "-register-all".

Local Open Scope string_scope.
Local Open Scope Z_scope.

(** ** Decoded payloads *)

(** A value of a decoded JSON body.  JSON numbers are restricted to
    integers; object keys are strings. *)
Inductive value : Type :=
| VNone
| VBool (b : bool)
| VInt (n : Z)
| VStr (s : string)
| VList (l : list value)
| VDict (d : gmap string value).

(** ** Exceptions and the error monad *)

Inductive exn : Type :=
| KeyError (k : value)
| IndexError
| TypeError
| AttributeError
| ValueError
| NotImplementedError (msg : string).

Inductive result (A : Type) : Type :=
| Ok (a : A)
| Raise (e : exn).

Arguments Ok {A} a.
Arguments Raise {A} e.

Definition bind {A B : Type} (m : result A) (k : A -> result B) : result B :=
  match m with
  | Ok a => k a
  | Raise e => Raise e
  end.

Notation "'do' x <- m ; k" := (bind m (fun x => k))
  (at level 10, x name, m at level 100, k at level 200).

(** [try: x = m  except KeyError: h  else: k x].  Only a [KeyError] raised
    by [m] is handled; whatever [k] raises propagates. *)
Definition try_KeyError_else {A B : Type}
    (m : result A) (h : exn -> result B) (k : A -> result B) : result B :=
  match m with
  | Ok a => k a
  | Raise (KeyError key) => h (KeyError key)
  | Raise e => Raise e
  end.

(** [try: return m  except KeyError: h] *)
Definition except_KeyError {A : Type} (m : result A) (h : result A) : result A :=
  try_KeyError_else m (fun _ => h) Ok.

(** [try: return m  except IndexError: h] *)
Definition except_IndexError {A : Type} (m : result A) (h : result A) : result A :=
  match m with
  | Raise IndexError => h
  | _ => m
  end.

(** ** Python primitives on decoded values *)

(** Truth value testing: [None], [False], zero and empty containers are
    false. *)
Definition truthy (v : value) : bool :=
  match v with
  | VNone => false
  | VBool b => b
  | VInt n => negb (n =? 0)
  | VStr s => negb (String.eqb s "")
  | VList l => match l with [] => false | _ => true end
  | VDict d => negb (Nat.eqb (size d) 0)
  end.

(** [d[k]] on a dictionary with string keys. *)
Definition dict_getitem (d : gmap string value) (k : string) : result value :=
  match d !! k with
  | Some v => Ok v
  | None => Raise (KeyError (VStr k))
  end.

(** [x[k]] for a string key [k]: only a dictionary can be subscripted by a
    string. *)
Definition getitem (x : value) (k : string) : result value :=
  match x with
  | VDict d => dict_getitem d k
  | _ => Raise TypeError
  end.

(** [x[i]] for an integer index [i]. *)
Definition getitem_int (x : value) (i : Z) : result value :=
  match x with
  | VList l =>
      let n := Z.of_nat (length l) in
      let j := if i <? 0 then i + n else i in
      if (0 <=? j) && (j <? n)
      then match nth_error l (Z.to_nat j) with
           | Some v => Ok v
           | None => Raise IndexError
           end
      else Raise IndexError
  | VStr s =>
      let n := Z.of_nat (String.length s) in
      let j := if i <? 0 then i + n else i in
      if (0 <=? j) && (j <? n)
      then match String.get (Z.to_nat j) s with
           | Some c => Ok (VStr (String c EmptyString))
           | None => Raise IndexError
           end
      else Raise IndexError
  | VDict _ => Raise (KeyError (VInt i))
  | _ => Raise TypeError
  end.

(** [x.get(k, default)]: only dictionaries have a [get] method. *)
Definition get (x : value) (k : string) (default : value) : result value :=
  match x with
  | VDict d => Ok (match d !! k with Some v => v | None => default end)
  | _ => Raise AttributeError
  end.

(** [sub] occurs in [s] as a contiguous substring. *)
Fixpoint is_substring (sub s : string) : bool :=
  String.prefix sub s ||
  match s with
  | EmptyString => false
  | String _ s' => is_substring sub s'
  end.

Definition is_str (k : string) (v : value) : bool :=
  match v with
  | VStr s => String.eqb s k
  | _ => false
  end.

(** [k in x] for a string [k]. *)
Definition contains (k : string) (x : value) : result bool :=
  match x with
  | VDict d => Ok (bool_decide (is_Some (d !! k)))
  | VList l => Ok (existsb (is_str k) l)
  | VStr s => Ok (is_substring k s)
  | _ => Raise TypeError
  end.

(** [k in self] where [self] is the dictionary itself. *)
Definition dict_contains (k : string) (d : gmap string value) : bool :=
  bool_decide (is_Some (d !! k)).

(** [self.get(k)] *)
Definition dict_get (d : gmap string value) (k : string) (default : value) : value :=
  match d !! k with
  | Some v => v
  | None => default
  end.

(** The elements a [for] loop over [x] visits: the items of a list, the
    characters of a string, the keys of a dictionary (here in the order of
    the finite map; the loops below fail or succeed alike in any order). *)
Definition iterate (x : value) : result (list value) :=
  match x with
  | VList l => Ok l
  | VStr s =>
      Ok (map (fun c => VStr (String c EmptyString)) (list_ascii_of_string s))
  | VDict d => Ok (map (fun kv => VStr (fst kv)) (map_to_list d))
  | _ => Raise TypeError
  end.

(** The list comprehension [[f r for r in l]]: the first exception
    raised by [f] ends it. *)
Fixpoint comprehension (f : value -> result value) (l : list value)
    : result (list value) :=
  match l with
  | [] => Ok []
  | r :: l' =>
      do y <- f r;
      do ys <- comprehension f l';
      Ok (y :: ys)
  end.

(** ** External collaborators *)

(** [oslo_utils.timeutils]: [parse_isotime] turns a timestamp field into a
    datetime, [normalize_time] turns a datetime into a naive UTC instant.
    Naive UTC instants, and the result of [utcnow()], are counted in
    microseconds (the resolution of [datetime]); [timedelta(seconds=n)] is
    [n] million of them.  The range limits of [datetime] and [timedelta]
    (their [OverflowError]) are not modelled. *)
Class TimeUtils : Type := {
  datetime : Type;
  parse_isotime : value -> result datetime;
  normalize_time : datetime -> Z
}.

Definition timedelta_seconds (n : Z) : Z := 1000000 * n.

(** [service_catalog.ServiceCatalog.factory(resource_dict, token)]. *)
Class CatalogBuilder : Type := {
  ServiceCatalog : Type;
  ServiceCatalog_factory : gmap string value -> value -> result ServiceCatalog
}.

(** The response object handed to [create]: its truth value, the outcome
    of [resp.json()] and its headers. *)
Record response : Type := {
  resp_bool : bool;
  resp_json : result value;
  resp_headers : gmap string value
}.

(** gap, in seconds, to determine whether the given token is about to
    expire *)
Definition STALE_TOKEN_DURATION : Z := 30.

(** ** Instances *)

(** The class of an instance; method calls on [self] dispatch on it. *)
Inductive class : Type :=
| ClassAccessInfo
| ClassAccessInfoV2
| ClassAccessInfoV3.

(** An instance: its class, its dictionary contents and the
    [service_catalog] attribute. *)
Record instance `{CatalogBuilder} : Type := {
  class_of : class;
  fields : gmap string value;
  service_catalog : ServiceCatalog
}.

(** Unpacking [v] into the keyword parameters of a constructor whose named
    parameters are [named]: [v] must be a mapping, and none of its keys
    may name a parameter that is already bound. *)
Definition bind_kwargs (named : list string) (v : value)
    : result (gmap string value) :=
  match v with
  | VDict d =>
      if existsb (fun k => dict_contains k d) named
      then Raise TypeError
      else Ok d
  | _ => Raise TypeError
  end.

(** ** class AccessInfoV2 *)

Module AccessInfoV2.

(** The constructor, called with the keyword arguments [kwargs]. *)
Definition __init__ `{CatalogBuilder} (kwargs : gmap string value)
    : result instance :=
  let self := kwargs in
  let self := <["version" := VStr "v2.0"]> self in
  do token <- dict_getitem self "token";
  do token_id <- getitem token "id";
  do catalog <- ServiceCatalog_factory self token_id;
  Ok {| class_of := ClassAccessInfoV2; fields := self;
        service_catalog := catalog |}.

Definition has_service_catalog (self : gmap string value) : bool :=
  dict_contains "serviceCatalog" self.

Definition auth_token (self : gmap string value) : result value :=
  except_KeyError (dict_getitem self "auth_token")
    (do token <- dict_getitem self "token"; getitem token "id").

Definition expires `{TimeUtils} (self : gmap string value) : result datetime :=
  do token <- dict_getitem self "token";
  do e <- getitem token "expires";
  parse_isotime e.

Definition issued `{TimeUtils} (self : gmap string value) : result datetime :=
  do token <- dict_getitem self "token";
  do e <- getitem token "issued_at";
  parse_isotime e.

Definition user_id (self : gmap string value) : result value :=
  do user <- dict_getitem self "user"; getitem user "id".

Definition user_domain_id (self : gmap string value) : result value :=
  Ok (VStr "default").

Definition user_domain_name (self : gmap string value) : result value :=
  Ok (VStr "Default").

Definition domain_name (self : gmap string value) : result value := Ok VNone.

Definition domain_id (self : gmap string value) : result value := Ok VNone.

Definition project_name (self : gmap string value) : result value :=
  try_KeyError_else
    (do token <- dict_getitem self "token"; getitem token "tenant")
    (fun _ =>
       (* pre grizzly *)
       except_KeyError
         (do user <- dict_getitem self "user"; getitem user "tenantName")
         (* pre diablo, keystone only provided a tenantId *)
         (except_KeyError
            (do token <- dict_getitem self "token"; getitem token "tenantId")
            (Ok VNone)))
    (fun tenant_dict => get tenant_dict "name" VNone).

Definition scoped (self : gmap string value) : result value :=
  if dict_contains "serviceCatalog" self then
    do catalog <- dict_getitem self "serviceCatalog";
    if truthy catalog then
      do token <- dict_getitem self "token";
      do has_tenant <- contains "tenant" token;
      if has_tenant then Ok (VBool true) else Ok (VBool false)
    else Ok (VBool false)
  else Ok (VBool false).

Definition project_scoped (self : gmap string value) : result value :=
  do token <- dict_getitem self "token";
  do has_tenant <- contains "tenant" token;
  Ok (VBool has_tenant).

Definition domain_scoped (self : gmap string value) : result value :=
  Ok (VBool false).

Definition project_id (self : gmap string value) : result value :=
  try_KeyError_else
    (do token <- dict_getitem self "token"; getitem token "tenant")
    (fun _ =>
       (* pre grizzly *)
       except_KeyError
         (do user <- dict_getitem self "user"; getitem user "tenantId")
         (* pre diablo *)
         (except_KeyError
            (do token <- dict_getitem self "token"; getitem token "tenantId")
            (Ok VNone)))
    (fun tenant_dict => get tenant_dict "id" VNone).

Definition project_domain_id (self : gmap string value) : result value :=
  do pid <- project_id self;
  if truthy pid then Ok (VStr "default") else Ok VNone.

Definition project_domain_name (self : gmap string value) : result value :=
  do pid <- project_id self;
  if truthy pid then Ok (VStr "Default") else Ok VNone.

Definition is_federated (self : gmap string value) : result value :=
  Ok (VBool false).

Definition audit_id (self : gmap string value) : result value :=
  except_IndexError
    (do token <- dict_getitem self "token";
     do ids <- get token "audit_ids" (VList []);
     getitem_int ids 0)
    (Ok VNone).

Definition audit_chain_id (self : gmap string value) : result value :=
  except_IndexError
    (do token <- dict_getitem self "token";
     do ids <- get token "audit_ids" (VList []);
     getitem_int ids 1)
    (Ok VNone).

(** The default handed to the outer [get] is itself evaluated, before the
    outer call. *)
Definition username (self : gmap string value) : result value :=
  do user <- dict_getitem self "user";
  do user' <- dict_getitem self "user";
  do fallback <- get user' "username" VNone;
  get user "name" fallback.

Definition role_ids (self : gmap string value) : result value :=
  get (dict_get self "metadata" (VDict ∅)) "roles" (VList []).

Definition role_names (self : gmap string value) : result value :=
  do user <- dict_getitem self "user";
  do roles <- get user "roles" (VList []);
  do rs <- iterate roles;
  do names <- comprehension (fun r => getitem r "name") rs;
  Ok (VList names).

Definition trust_id (self : gmap string value) : result value :=
  get (dict_get self "trust" (VDict ∅)) "id" VNone.

Definition trust_scoped (self : gmap string value) : result value :=
  Ok (VBool (dict_contains "trust" self)).

Definition trustee_user_id (self : gmap string value) : result value :=
  get (dict_get self "trust" (VDict ∅)) "trustee_user_id" VNone.

(** this information is not available in the v2 token bug: #1331882 *)
Definition trustor_user_id (self : gmap string value) : result value :=
  Ok VNone.

Definition oauth_access_token_id (self : gmap string value) : result value :=
  Ok VNone.

Definition oauth_consumer_id (self : gmap string value) : result value :=
  Ok VNone.

End AccessInfoV2.

(** ** class AccessInfoV3 *)

Module AccessInfoV3.

(** The constructor, called with [token] and the keyword arguments
    [kwargs]. *)
Definition __init__ `{CatalogBuilder} (token : value)
    (kwargs : gmap string value) : result instance :=
  let self := kwargs in
  let self := <["version" := VStr "v3"]> self in
  do catalog <- ServiceCatalog_factory self token;
  let self :=
    if truthy token then <["auth_token" := token]> self else self in
  Ok {| class_of := ClassAccessInfoV3; fields := self;
        service_catalog := catalog |}.

Definition has_service_catalog (self : gmap string value) : bool :=
  dict_contains "catalog" self.

(** Inherited unchanged from [AccessInfo]: [self['auth_token']]. *)
Definition auth_token (self : gmap string value) : result value :=
  dict_getitem self "auth_token".

Definition is_federated (self : gmap string value) : result value :=
  do user <- dict_getitem self "user";
  do b <- contains "OS-FEDERATION" user;
  Ok (VBool b).

Definition expires `{TimeUtils} (self : gmap string value) : result datetime :=
  do e <- dict_getitem self "expires_at";
  parse_isotime e.

Definition issued `{TimeUtils} (self : gmap string value) : result datetime :=
  do e <- dict_getitem self "issued_at";
  parse_isotime e.

Definition user_id (self : gmap string value) : result value :=
  do user <- dict_getitem self "user"; getitem user "id".

Definition user_domain_id (self : gmap string value) : result value :=
  try_KeyError_else
    (do user <- dict_getitem self "user";
     do domain <- getitem user "domain";
     getitem domain "id")
    (fun e =>
       do fed <- is_federated self;
       if truthy fed then Ok VNone else Raise e)
    Ok.

Definition user_domain_name (self : gmap string value) : result value :=
  try_KeyError_else
    (do user <- dict_getitem self "user";
     do domain <- getitem user "domain";
     getitem domain "name")
    (fun e =>
       do fed <- is_federated self;
       if truthy fed then Ok VNone else Raise e)
    Ok.

Definition username (self : gmap string value) : result value :=
  do user <- dict_getitem self "user"; getitem user "name".

Definition domain_name (self : gmap string value) : result value :=
  let domain := dict_get self "domain" VNone in
  if truthy domain then getitem domain "name" else Ok VNone.

Definition domain_id (self : gmap string value) : result value :=
  let domain := dict_get self "domain" VNone in
  if truthy domain then getitem domain "id" else Ok VNone.

Definition project_id (self : gmap string value) : result value :=
  let project := dict_get self "project" VNone in
  if truthy project then getitem project "id" else Ok VNone.

Definition project_domain_id (self : gmap string value) : result value :=
  let project := dict_get self "project" VNone in
  if truthy project
  then do domain <- getitem project "domain"; getitem domain "id"
  else Ok VNone.

Definition project_domain_name (self : gmap string value) : result value :=
  let project := dict_get self "project" VNone in
  if truthy project
  then do domain <- getitem project "domain"; getitem domain "name"
  else Ok VNone.

Definition project_name (self : gmap string value) : result value :=
  let project := dict_get self "project" VNone in
  if truthy project then getitem project "name" else Ok VNone.

(** ['catalog' in self and self['catalog'] and 'project' in self]: the
    value of an [and] chain is its first false operand, else its last. *)
Definition scoped (self : gmap string value) : result value :=
  if dict_contains "catalog" self then
    do catalog <- dict_getitem self "catalog";
    if truthy catalog
    then Ok (VBool (dict_contains "project" self))
    else Ok catalog
  else Ok (VBool false).

Definition project_scoped (self : gmap string value) : result value :=
  Ok (VBool (dict_contains "project" self)).

Definition domain_scoped (self : gmap string value) : result value :=
  Ok (VBool (dict_contains "domain" self)).

Definition audit_id (self : gmap string value) : result value :=
  except_IndexError
    (getitem_int (dict_get self "audit_ids" (VList [])) 0)
    (Ok VNone).

Definition audit_chain_id (self : gmap string value) : result value :=
  except_IndexError
    (getitem_int (dict_get self "audit_ids" (VList [])) 1)
    (Ok VNone).

Definition role_ids (self : gmap string value) : result value :=
  do rs <- iterate (dict_get self "roles" (VList []));
  do ids <- comprehension (fun r => getitem r "id") rs;
  Ok (VList ids).

Definition role_names (self : gmap string value) : result value :=
  do rs <- iterate (dict_get self "roles" (VList []));
  do names <- comprehension (fun r => getitem r "name") rs;
  Ok (VList names).

Definition trust_id (self : gmap string value) : result value :=
  get (dict_get self "OS-TRUST:trust" (VDict ∅)) "id" VNone.

Definition trust_scoped (self : gmap string value) : result value :=
  Ok (VBool (dict_contains "OS-TRUST:trust" self)).

Definition trustee_user_id (self : gmap string value) : result value :=
  do trustee <- get (dict_get self "OS-TRUST:trust" (VDict ∅))
                    "trustee_user" (VDict ∅);
  get trustee "id" VNone.

Definition trustor_user_id (self : gmap string value) : result value :=
  do trustor <- get (dict_get self "OS-TRUST:trust" (VDict ∅))
                    "trustor_user" (VDict ∅);
  get trustor "id" VNone.

Definition oauth_access_token_id (self : gmap string value) : result value :=
  get (dict_get self "OS-OAUTH1" (VDict ∅)) "access_token_id" VNone.

Definition oauth_consumer_id (self : gmap string value) : result value :=
  get (dict_get self "OS-OAUTH1" (VDict ∅)) "consumer_id" VNone.

End AccessInfoV3.

(** ** class AccessInfo *)

Module AccessInfo.

Section Methods.
Context `{CatalogBuilder} `{TimeUtils}.

Definition with_fields (self : instance) (d : gmap string value) : instance :=
  {| class_of := class_of self; fields := d;
     service_catalog := service_catalog self |}.

Definition not_implemented {A : Type} : result A :=
  Raise (NotImplementedError "").

Definition auth_token (self : instance) : result value :=
  match class_of self with
  | ClassAccessInfoV2 => AccessInfoV2.auth_token (fields self)
  | _ => dict_getitem (fields self) "auth_token"
  end.

(** The [auth_token] setter. *)
Definition set_auth_token (self : instance) (v : value) : instance :=
  with_fields self (<["auth_token" := v]> (fields self)).

(** The [auth_token] deleter; a missing key is ignored. *)
Definition del_auth_token (self : instance) : instance :=
  with_fields self (delete "auth_token" (fields self)).

Definition expires (self : instance) : result datetime :=
  match class_of self with
  | ClassAccessInfo => not_implemented
  | ClassAccessInfoV2 => AccessInfoV2.expires (fields self)
  | ClassAccessInfoV3 => AccessInfoV3.expires (fields self)
  end.

Definition project_name (self : instance) : result value :=
  match class_of self with
  | ClassAccessInfo => not_implemented
  | ClassAccessInfoV2 => AccessInfoV2.project_name (fields self)
  | ClassAccessInfoV3 => AccessInfoV3.project_name (fields self)
  end.

Definition project_id (self : instance) : result value :=
  match class_of self with
  | ClassAccessInfo => not_implemented
  | ClassAccessInfoV2 => AccessInfoV2.project_id (fields self)
  | ClassAccessInfoV3 => AccessInfoV3.project_id (fields self)
  end.

Definition audit_id (self : instance) : result value :=
  match class_of self with
  | ClassAccessInfo => not_implemented
  | ClassAccessInfoV2 => AccessInfoV2.audit_id (fields self)
  | ClassAccessInfoV3 => AccessInfoV3.audit_id (fields self)
  end.

Definition audit_chain_id (self : instance) : result value :=
  match class_of self with
  | ClassAccessInfo => not_implemented
  | ClassAccessInfoV2 => AccessInfoV2.audit_chain_id (fields self)
  | ClassAccessInfoV3 => AccessInfoV3.audit_chain_id (fields self)
  end.

(** [stale_duration=None] is [None]; the clock reading [utcnow()] is
    passed in as [utcnow]. *)
Definition will_expire_soon (self : instance) (stale_duration : option Z)
    (utcnow : Z) : result bool :=
  let stale_duration :=
    match stale_duration with
    | None => STALE_TOKEN_DURATION
    | Some d => d
    end in
  do e <- expires self;
  let norm_expires := normalize_time e in
  let soon := utcnow + timedelta_seconds stale_duration in
  Ok (norm_expires <? soon).

(** Synonym for project_name. *)
Definition tenant_name (self : instance) : result value := project_name self.

(** Synonym for project_id. *)
Definition tenant_id (self : instance) : result value := project_id self.

Definition version (self : instance) : value :=
  dict_get (fields self) "version" VNone.

(** [self.audit_chain_id or self.audit_id] *)
Definition initial_audit_id (self : instance) : result value :=
  do chain <- audit_chain_id self;
  if truthy chain then Ok chain else audit_id self.

End Methods.

End AccessInfo.

(** ** The factory *)

Section Create.
Context `{CatalogBuilder}.

(** [resp=None] is [None]; [body=None] and [auth_token=None] are
    [VNone]. *)
Definition create (resp : option response) (body auth_token : value)
    : result instance :=
  do body <-
    match resp with
    | Some r => if resp_bool r && negb (truthy body) then resp_json r else Ok body
    | None => Ok body
    end;
  do has_token <- contains "token" body;
  if has_token then
    let auth_token :=
      match resp with
      | Some r =>
          if resp_bool r && negb (truthy auth_token)
          then dict_get (resp_headers r) "X-Subject-Token" VNone
          else auth_token
      | None => auth_token
      end in
    do token <- getitem body "token";
    do kwargs <- bind_kwargs ["self"; "token"] token;
    AccessInfoV3.__init__ auth_token kwargs
  else
    do has_access <- contains "access" body;
    if has_access then
      do access <- getitem body "access";
      do kwargs <- bind_kwargs ["self"] access;
      AccessInfoV2.__init__ kwargs
    else Raise (NotImplementedError "Unrecognized auth response").

End Create.

(** ** Vocabulary of the statements *)

(** The legacy key [k] cannot be found under [user]: there is no [user]
    object, or it has no such key. *)
Definition user_lacks (self : gmap string value) (k : string) : Prop :=
  self !! "user" = None \/
  exists user, self !! "user" = Some (VDict user) /\ user !! k = None.

(** The key [k] cannot be found under [user.domain]: there is no [domain]
    key, or [domain] is an object without [k]. *)
Definition domain_key_missing (user : gmap string value) (k : string) : Prop :=
  user !! "domain" = None \/
  exists dom, user !! "domain" = Some (VDict dom) /\ dom !! k = None.

(** The element of a sequence at an index, [None] when out of range. *)
Definition element_or_None (l : list value) (i : nat) : value :=
  match nth_error l i with
  | Some v => v
  | None => VNone
  end.

(** The [audit_ids] entry an adapter reads, an empty list standing for a
    missing key: under [token] for V2, at the top level for V3. *)
Definition audit_ids_of `{CatalogBuilder} (self : instance) : option value :=
  match class_of self with
  | ClassAccessInfo => None
  | ClassAccessInfoV2 =>
      match fields self !! "token" with
      | Some (VDict token) => Some (dict_get token "audit_ids" (VList []))
      | _ => None
      end
  | ClassAccessInfoV3 => Some (dict_get (fields self) "audit_ids" (VList []))
  end.

(** The entry [k] of [self] exists and is non-empty (true as a truth
    value). *)
Definition nonempty_entry (self : gmap string value) (k : string) : Prop :=
  exists c, self !! k = Some c /\ truthy c = true.

(** ** Fixtures for the examples *)

Module Fixture.

(** A datetime as wall-clock microseconds with an optional UTC offset,
    itself in microseconds. *)
Record aware : Type := { wall : Z; utcoffset : option Z }.

(** A time library that finds the timestamp already decoded in the
    payload: [[wall, offset]] for an aware datetime, [wall] for a naive
    one.  Normalizing subtracts the offset. *)
Definition time : TimeUtils := {|
  datetime := aware;
  parse_isotime v :=
    match v with
    | VInt w => Ok {| wall := w; utcoffset := None |}
    | VList [VInt w; VInt off] => Ok {| wall := w; utcoffset := Some off |}
    | _ => Raise ValueError
    end;
  normalize_time d :=
    match utcoffset d with
    | None => wall d
    | Some off => wall d - off
    end
|}.

(** A catalog builder that records its two arguments. *)
Definition catalog : CatalogBuilder := {|
  ServiceCatalog := gmap string value * value;
  ServiceCatalog_factory d token := Ok (d, token)
|}.

Definition dict (l : list (string * value)) : gmap string value :=
  list_to_map l.

Definition obj (l : list (string * value)) : value := VDict (dict l).

(** A pre-diablo V2 token: only [token.tenantId] names the project. *)
Definition v2_tenantId_token : gmap string value :=
dict [("id", VStr "t1"); ("tenantId", VStr "p1")].

Definition v2_tenantId_only : gmap string value :=
dict [("token", VDict v2_tenantId_token);
      ("user", obj [("id", VStr "u1"); ("name", VStr "alice")])].

(** A V2 token whose [token.tenant] is an empty object, next to legacy
  fields that do name a project. *)
Definition v2_empty_tenant_token : gmap string value :=
dict [("id", VStr "t1"); ("tenant", obj []); ("tenantId", VStr "p1")].

Definition v2_empty_tenant : gmap string value :=
dict [("token", VDict v2_empty_tenant_token);
      ("user", obj [("id", VStr "u1"); ("tenantId", VStr "p0");
                    ("tenantName", VStr "legacy")])].

(** A V3 token scoped to a project given as an empty object. *)
Definition v3_empty_project : gmap string value :=
dict [("user", obj [("id", VStr "u2"); ("name", VStr "bob")]);
      ("project", obj [])].

(** A V3 token scoped to a project in a domain, with a catalog. *)
Definition v3_project_domain : gmap string value :=
dict [("id", VStr "d1"); ("name", VStr "Dom")].

Definition v3_project : gmap string value :=
dict [("id", VStr "p1"); ("name", VStr "proj");
      ("domain", VDict v3_project_domain)].

Definition v3_user : gmap string value :=
dict [("id", VStr "u2"); ("name", VStr "bob");
      ("domain", VDict v3_project_domain)].

Definition v3_scoped : gmap string value :=
dict [("user", VDict v3_user); ("project", VDict v3_project);
      ("catalog", VList [obj [("type", VStr "identity")]]);
      ("audit_ids", VList [VStr "a1"; VStr "a0"])].

(** A V3 token whose second audit id is the empty string. *)
Definition v3_empty_chain : gmap string value :=
dict [("user", VDict v3_user);
      ("audit_ids", VList [VStr "a1"; VStr ""])].

(** A scoped V2 token. *)
Definition v2_token : gmap string value :=
dict [("id", VStr "t1");
      ("tenant", obj [("id", VStr "p1"); ("name", VStr "proj")])].

Definition v2_scoped : gmap string value :=
dict [("token", VDict v2_token);
      ("user", obj [("id", VStr "u1"); ("name", VStr "alice")]);
      ("serviceCatalog", VList [obj [("type", VStr "identity")]])].

(** Instances over the recording catalog builder. *)
Definition v3_instance (self : gmap string value)
  : @instance catalog :=
@Build_instance catalog ClassAccessInfoV3 self (self, VNone).

Definition v2_instance (self : gmap string value)
  : @instance catalog :=
@Build_instance catalog ClassAccessInfoV2 self (self, VNone).

(** A V3 token body that carries an [auth_token] key of its own, as a
  dictionary saved from an earlier instance does. *)
Definition v3_saved : gmap string value :=
dict [("user", VDict v3_user); ("version", VStr "v3");
      ("auth_token", VStr "tok-old")].

(** Response bodies handed to the factory. *)
Definition v3_body_token : gmap string value :=
dict [("user", obj [("id", VStr "u2"); ("name", VStr "bob")]);
      ("audit_ids", VList [VStr "a1"])].

Definition v3_body : gmap string value :=
dict [("token", VDict v3_body_token)].

Definition v3_saved_body : gmap string value :=
dict [("token", VDict v3_saved)].

Definition v2_body : gmap string value :=
dict [("access", VDict v2_scoped)].

(** A response carrying the V3 body, with the token in its header. *)
Definition v3_response : response :=
  {| resp_bool := true;
     resp_json := Ok (VDict v3_body);
     resp_headers := dict [("X-Subject-Token", VStr "tok-hdr")] |}.

(** A V3 token with roles, a trust and OAuth data. *)
Definition v3_delegated : gmap string value :=
  dict [("user", VDict v3_user);
        ("roles", VList [obj [("id", VStr "r1"); ("name", VStr "admin")];
                         obj [("id", VStr "r2"); ("name", VStr "member")]]);
        ("OS-TRUST:trust",
         obj [("id", VStr "tr1");
              ("trustee_user", obj [("id", VStr "u2")]);
              ("trustor_user", obj [("id", VStr "u9")])]);
        ("OS-OAUTH1", obj [("access_token_id", VStr "at1");
                           ("consumer_id", VStr "c1")]);
        ("expires_at", VInt 90000000)].

(** What the constructors return over the recording catalog builder. *)
Definition v2_created : @instance catalog :=
  @Build_instance catalog ClassAccessInfoV2
    (<["version" := VStr "v2.0"]> v2_scoped)
    (<["version" := VStr "v2.0"]> v2_scoped, VStr "t1").

Definition v3_created : @instance catalog :=
  @Build_instance catalog ClassAccessInfoV3
    (<["auth_token" := VStr "tok-xyz"]>
       (<["version" := VStr "v3"]> v3_body_token))
    (<["version" := VStr "v3"]> v3_body_token, VStr "tok-xyz").



End Fixture.

(** * Properties *)

(** ** Truth values of dictionaries *)

Lemma truthy_dict_nonempty (d : gmap string value) :
  truthy (VDict d) = true <-> d ≠ ∅.
Proof.
  simpl. rewrite negb_true_iff, Nat.eqb_neq.
  apply map_size_non_empty_iff.
Qed.

Lemma truthy_dict_lookup (d : gmap string value) (k : string) (v : value) :
  d !! k = Some v -> truthy (VDict d) = true.
Proof.
  intros Hk. apply truthy_dict_nonempty. intros ->.
  rewrite lookup_empty in Hk. discriminate.
Qed.

Lemma dict_contains_true (d : gmap string value) (k : string) :
  dict_contains k d = true <-> is_Some (d !! k).
Proof. unfold dict_contains. apply bool_decide_eq_true. Qed.

Lemma dict_contains_false (d : gmap string value) (k : string) :
  dict_contains k d = false <-> d !! k = None.
Proof.
  unfold dict_contains. rewrite bool_decide_eq_false.
  rewrite eq_None_not_Some. reflexivity.
Qed.

Lemma dict_getitem_Some (d : gmap string value) (k : string) (v : value) :
  d !! k = Some v -> dict_getitem d k = Ok v.
Proof. intros Hk. unfold dict_getitem. rewrite Hk. reflexivity. Qed.

Lemma dict_getitem_None (d : gmap string value) (k : string) :
  d !! k = None -> dict_getitem d k = Raise (KeyError (VStr k)).
Proof. intros Hk. unfold dict_getitem. rewrite Hk. reflexivity. Qed.

(** ** Aliases *)

Section Aliases.
Context `{CatalogBuilder} `{TimeUtils}.

  (** C9: on every instance, of whichever class, [tenant_name] gives
      exactly what [project_name] gives and [tenant_id] exactly what
      [project_id] gives, be it a value, [None] or a raised exception. *)
Theorem tenant_aliases_project (self : instance) :
    AccessInfo.tenant_name self = AccessInfo.project_name self /\
    AccessInfo.tenant_id self = AccessInfo.project_id self.
Proof. split; reflexivity. Qed.

End Aliases.

(** ** Expiry *)

Section Expiry.
Context `{CatalogBuilder} `{TimeUtils}.

Lemma will_expire_soon_eq (self : instance) (d : option Z) (utcnow : Z)
      (e : datetime) :
    AccessInfo.expires self = Ok e ->
    AccessInfo.will_expire_soon self d utcnow =
      Ok (normalize_time e <?
          utcnow + 1000000 * match d with None => 30 | Some n => n end).
Proof.
    intros He. unfold AccessInfo.will_expire_soon. rewrite He. simpl.
    destruct d; reflexivity.
Qed.

  (** C3: when [expires] resolves to [e], [will_expire_soon()] with no
      argument returns a boolean that is true exactly when the normalized
      expiry is strictly before the clock reading plus 30 seconds; so it
      is true for an expiry equal to the clock reading and false for one
      31 seconds later. *)
Theorem will_expire_soon_default (self : instance) (utcnow : Z)
      (e : datetime) :
    AccessInfo.expires self = Ok e ->
    exists b : bool,
      AccessInfo.will_expire_soon self None utcnow = Ok b /\
      (b = true <-> normalize_time e < utcnow + timedelta_seconds 30) /\
      (normalize_time e = utcnow -> b = true) /\
      (normalize_time e = utcnow + timedelta_seconds 31 -> b = false).
Proof.
    intros He.
    exists (normalize_time e <? utcnow + 1000000 * 30).
    split; [apply (will_expire_soon_eq self None utcnow e He)|].
    unfold timedelta_seconds.
    split; [apply Z.ltb_lt|].
    split; intros Hn.
    - apply Z.ltb_lt. lia.
    - apply Z.ltb_ge. lia.
Qed.

End Expiry.

(** A V2 instance whose expiry is the clock reading. *)
Lemma will_expire_soon_default_witness :
  let T := Fixture.time in
  let C := Fixture.catalog in
  let self := {| class_of := ClassAccessInfoV2;
                 fields := Fixture.dict
                   [("token", Fixture.obj [("id", VStr "t1");
                                           ("expires", VInt 5000000)])];
                 service_catalog := (∅, VNone) |} in
  exists b : bool,
    AccessInfo.will_expire_soon self None 5000000 = Ok b /\
    (b = true <->
     normalize_time {| Fixture.wall := 5000000; Fixture.utcoffset := None |}
       < 5000000 + timedelta_seconds 30) /\
    (normalize_time {| Fixture.wall := 5000000; Fixture.utcoffset := None |}
       = 5000000 -> b = true) /\
    (normalize_time {| Fixture.wall := 5000000; Fixture.utcoffset := None |}
       = 5000000 + timedelta_seconds 31 -> b = false).
Proof.
  intros T C self.
  apply (@will_expire_soon_default C T self 5000000
           {| Fixture.wall := 5000000; Fixture.utcoffset := None |}).
  vm_compute. reflexivity.
Defined.

(** ** The V2 project lookup *)

Section V2Project.
Variable self : gmap string value.
Variable token : gmap string value.
Hypothesis Htoken : self !! "token" = Some (VDict token).

Lemma token_tenant_lookup (k : string) :
  (do t <- dict_getitem self "token"; getitem t k) = dict_getitem token k.
Proof. unfold dict_getitem at 1. rewrite Htoken. reflexivity. Qed.

(** First tier: [token.tenant] is present, whatever its value. *)
Lemma project_id_tier1 (t : value) :
  token !! "tenant" = Some t ->
  AccessInfoV2.project_id self = get t "id" VNone.
Proof.
  intros Ht. unfold AccessInfoV2.project_id.
  rewrite token_tenant_lookup. unfold dict_getitem. rewrite Ht. reflexivity.
Qed.

Lemma project_name_tier1 (t : value) :
  token !! "tenant" = Some t ->
  AccessInfoV2.project_name self = get t "name" VNone.
Proof.
  intros Ht. unfold AccessInfoV2.project_name.
  rewrite token_tenant_lookup. unfold dict_getitem. rewrite Ht. reflexivity.
Qed.

(** Second tier: [token.tenant] is missing and the legacy key under
    [user] is present, whatever its value. *)
Lemma project_id_tier2 (user : gmap string value) (v : value) :
  token !! "tenant" = None ->
  self !! "user" = Some (VDict user) ->
  user !! "tenantId" = Some v ->
  AccessInfoV2.project_id self = Ok v.
Proof.
  intros Ht Hu Hv. unfold AccessInfoV2.project_id.
  rewrite token_tenant_lookup. unfold dict_getitem at 1. rewrite Ht. simpl.
  unfold dict_getitem at 1. rewrite Hu. simpl.
  unfold dict_getitem. rewrite Hv. reflexivity.
Qed.

Lemma project_name_tier2 (user : gmap string value) (v : value) :
  token !! "tenant" = None ->
  self !! "user" = Some (VDict user) ->
  user !! "tenantName" = Some v ->
  AccessInfoV2.project_name self = Ok v.
Proof.
  intros Ht Hu Hv. unfold AccessInfoV2.project_name.
  rewrite token_tenant_lookup. unfold dict_getitem at 1. rewrite Ht. simpl.
  unfold dict_getitem at 1. rewrite Hu. simpl.
  unfold dict_getitem. rewrite Hv. reflexivity.
Qed.

Lemma user_lookup_KeyError (k : string) :
  user_lacks self k ->
  exists key, (do u <- dict_getitem self "user"; getitem u k)
              = Raise (KeyError key).
Proof.
  intros [Hu | (user & Hu & Hk)]; unfold dict_getitem at 1; rewrite Hu; simpl.
  - eauto.
  - unfold dict_getitem. rewrite Hk. eauto.
Qed.

(** Third tier: both earlier lookups miss a key. *)
Lemma project_id_tier3 :
  token !! "tenant" = None ->
  user_lacks self "tenantId" ->
  AccessInfoV2.project_id self = Ok (dict_get token "tenantId" VNone).
Proof.
  intros Ht Hu. unfold AccessInfoV2.project_id.
  rewrite !token_tenant_lookup. unfold dict_getitem at 1. rewrite Ht. simpl.
  destruct (user_lookup_KeyError "tenantId" Hu) as [key ->]. simpl.
  unfold dict_getitem, dict_get. destruct (token !! "tenantId"); reflexivity.
Qed.

Lemma project_name_tier3 :
  token !! "tenant" = None ->
  user_lacks self "tenantName" ->
  AccessInfoV2.project_name self = Ok (dict_get token "tenantId" VNone).
Proof.
  intros Ht Hu. unfold AccessInfoV2.project_name.
  rewrite !token_tenant_lookup. unfold dict_getitem at 1. rewrite Ht. simpl.
  destruct (user_lookup_KeyError "tenantName" Hu) as [key ->]. simpl.
  unfold dict_getitem, dict_get. destruct (token !! "tenantId"); reflexivity.
Qed.

End V2Project.

(** C1, as amended: when only [token.tenantId] names the project (no
    [token.tenant], and neither [tenantName] nor [tenantId] under [user]),
    [project_id] and [project_name] both return the value of
    [token.tenantId]. *)
Theorem project_tenantId_only (self token : gmap string value) (v : value) :
  self !! "token" = Some (VDict token) ->
  token !! "tenant" = None ->
  token !! "tenantId" = Some v ->
  user_lacks self "tenantName" ->
  user_lacks self "tenantId" ->
  AccessInfoV2.project_id self = Ok v /\
  AccessInfoV2.project_name self = Ok v.
Proof.
  intros Htok Ht Hv Hn Hi.
  rewrite (project_id_tier3 self token Htok Ht Hi).
  rewrite (project_name_tier3 self token Htok Ht Hn).
  unfold dict_get. rewrite Hv. split; reflexivity.
Qed.

Lemma v2_tenantId_only_user_lacks :
  user_lacks Fixture.v2_tenantId_only "tenantName" /\
  user_lacks Fixture.v2_tenantId_only "tenantId".
Proof.
  split; right;
    exists (Fixture.dict [("id", VStr "u1"); ("name", VStr "alice")]);
    split; vm_compute; reflexivity.
Qed.

Lemma project_tenantId_only_witness :
  AccessInfoV2.project_id Fixture.v2_tenantId_only = Ok (VStr "p1") /\
  AccessInfoV2.project_name Fixture.v2_tenantId_only = Ok (VStr "p1").
Proof.
  apply (project_tenantId_only Fixture.v2_tenantId_only
           Fixture.v2_tenantId_token (VStr "p1")).
  - vm_compute; reflexivity.
  - vm_compute; reflexivity.
  - vm_compute; reflexivity.
  - apply v2_tenantId_only_user_lacks.
  - apply v2_tenantId_only_user_lacks.
Defined.

(** C1, as stated, fails: on a payload where only [token.tenantId] names
    the project, [project_name] is that identifier and not [None]. *)
Lemma project_name_tenantId_only_not_absent :
  Fixture.v2_tenantId_only !! "token" = Some (VDict Fixture.v2_tenantId_token) /\
  Fixture.v2_tenantId_token !! "tenant" = None /\
  Fixture.v2_tenantId_token !! "tenantId" = Some (VStr "p1") /\
  user_lacks Fixture.v2_tenantId_only "tenantName" /\
  user_lacks Fixture.v2_tenantId_only "tenantId" /\
  AccessInfoV2.project_id Fixture.v2_tenantId_only = Ok (VStr "p1") /\
  AccessInfoV2.project_name Fixture.v2_tenantId_only = Ok (VStr "p1") /\
  AccessInfoV2.project_name Fixture.v2_tenantId_only <> Ok VNone.
Proof.
  repeat split; try (vm_compute; reflexivity).
  - apply v2_tenantId_only_user_lacks.
  - apply v2_tenantId_only_user_lacks.
  - vm_compute. discriminate.
Qed.

(** C7: with [token.tenant] present, whatever its value, [project_id] and
    [project_name] are what [get] on that value gives, so they are the same
    on any two tokens with the same [token.tenant], whatever their legacy
    fields; an empty [token.tenant] object gives [None].  With
    [token.tenant] missing and the legacy key under [user] present,
    whatever its value, that value is returned, whatever [token.tenantId]
    holds. *)
Theorem project_lookup_tiers (self token : gmap string value) :
  self !! "token" = Some (VDict token) ->
  (forall t, token !! "tenant" = Some t ->
     AccessInfoV2.project_id self = get t "id" VNone /\
     AccessInfoV2.project_name self = get t "name" VNone) /\
  (forall t self' token',
     token !! "tenant" = Some t ->
     self' !! "token" = Some (VDict token') ->
     token' !! "tenant" = Some t ->
     AccessInfoV2.project_id self' = AccessInfoV2.project_id self /\
     AccessInfoV2.project_name self' = AccessInfoV2.project_name self) /\
  (token !! "tenant" = Some (VDict ∅) ->
     AccessInfoV2.project_id self = Ok VNone /\
     AccessInfoV2.project_name self = Ok VNone) /\
  (forall user v,
     token !! "tenant" = None ->
     self !! "user" = Some (VDict user) ->
     user !! "tenantId" = Some v ->
     AccessInfoV2.project_id self = Ok v) /\
  (forall user v,
     token !! "tenant" = None ->
     self !! "user" = Some (VDict user) ->
     user !! "tenantName" = Some v ->
     AccessInfoV2.project_name self = Ok v).
Proof.
  intros Htok. repeat split.
  - apply (project_id_tier1 self token Htok t H).
  - apply (project_name_tier1 self token Htok t H).
  - rewrite (project_id_tier1 self token Htok t H).
    apply (project_id_tier1 self' token' H0 t H1).
  - rewrite (project_name_tier1 self token Htok t H).
    apply (project_name_tier1 self' token' H0 t H1).
  - rewrite (project_id_tier1 self token Htok _ H). reflexivity.
  - rewrite (project_name_tier1 self token Htok _ H). reflexivity.
  - intros user v Ht Hu Hv. apply (project_id_tier2 self token Htok user v Ht Hu Hv).
  - intros user v Ht Hu Hv. apply (project_name_tier2 self token Htok user v Ht Hu Hv).
Qed.

Lemma project_lookup_tiers_witness :
  Fixture.v2_empty_tenant !! "token"
    = Some (VDict Fixture.v2_empty_tenant_token) /\
  Fixture.v2_empty_tenant_token !! "tenant" = Some (VDict ∅) /\
  AccessInfoV2.project_id Fixture.v2_empty_tenant = Ok VNone /\
  AccessInfoV2.project_name Fixture.v2_empty_tenant = Ok VNone.
Proof.
  assert (Htok : Fixture.v2_empty_tenant !! "token"
                 = Some (VDict Fixture.v2_empty_tenant_token))
    by (vm_compute; reflexivity).
  assert (Ht : Fixture.v2_empty_tenant_token !! "tenant" = Some (VDict ∅))
    by (vm_compute; reflexivity).
  split; [exact Htok|]. split; [exact Ht|].
  exact (proj1 (proj2 (proj2
    (project_lookup_tiers Fixture.v2_empty_tenant
       Fixture.v2_empty_tenant_token Htok))) Ht).
Defined.

(** ** The V3 project and user domains *)

Lemma truthy_dict_empty : truthy (VDict ∅) = false.
Proof. reflexivity. Qed.

(** C2, as amended: when [project] is a non-empty object,
    [project_domain_id] and [project_domain_name] return [id] and [name] of
    [project.domain] when that is present, and raise [KeyError] when
    [project.domain] is missing; when [project] is an empty object both
    return [None]. *)
Theorem project_domain_lookup (self project : gmap string value) :
  self !! "project" = Some (VDict project) ->
  (forall dom v,
     project !! "domain" = Some (VDict dom) -> dom !! "id" = Some v ->
     AccessInfoV3.project_domain_id self = Ok v) /\
  (forall dom v,
     project !! "domain" = Some (VDict dom) -> dom !! "name" = Some v ->
     AccessInfoV3.project_domain_name self = Ok v) /\
  (project ≠ ∅ -> project !! "domain" = None ->
     AccessInfoV3.project_domain_id self = Raise (KeyError (VStr "domain")) /\
     AccessInfoV3.project_domain_name self = Raise (KeyError (VStr "domain"))) /\
  (project = ∅ ->
     AccessInfoV3.project_domain_id self = Ok VNone /\
     AccessInfoV3.project_domain_name self = Ok VNone).
Proof.
  intros Hp.
  unfold AccessInfoV3.project_domain_id, AccessInfoV3.project_domain_name.
  unfold dict_get. rewrite Hp.
  split; [|split; [|split]].
  - intros dom v Hd Hv. rewrite (truthy_dict_lookup _ _ _ Hd). simpl.
    rewrite (dict_getitem_Some _ _ _ Hd). simpl.
    apply dict_getitem_Some, Hv.
  - intros dom v Hd Hv. rewrite (truthy_dict_lookup _ _ _ Hd). simpl.
    rewrite (dict_getitem_Some _ _ _ Hd). simpl.
    apply dict_getitem_Some, Hv.
  - intros Hne Hd. apply truthy_dict_nonempty in Hne. rewrite Hne. simpl.
    rewrite (dict_getitem_None _ _ Hd). split; reflexivity.
  - intros ->. rewrite truthy_dict_empty. split; reflexivity.
Qed.

Lemma project_domain_lookup_witness :
  Fixture.v3_scoped !! "project" = Some (VDict Fixture.v3_project) /\
  AccessInfoV3.project_domain_id Fixture.v3_scoped = Ok (VStr "d1").
Proof.
  assert (Hp : Fixture.v3_scoped !! "project" = Some (VDict Fixture.v3_project))
    by (vm_compute; reflexivity).
  split; [exact Hp|].
  apply (proj1 (project_domain_lookup Fixture.v3_scoped Fixture.v3_project Hp)
           Fixture.v3_project_domain (VStr "d1")).
  - vm_compute; reflexivity.
  - vm_compute; reflexivity.
Defined.

(** C2, as stated, fails: with [project] present as an empty object, so
    that [project.domain] is absent, both accessors return [None] and
    raise nothing. *)
Lemma project_domain_empty_project_absent :
  Fixture.v3_empty_project !! "project" = Some (VDict ∅) /\
  (∅ : gmap string value) !! "domain" = None /\
  AccessInfoV3.project_domain_id Fixture.v3_empty_project = Ok VNone /\
  AccessInfoV3.project_domain_name Fixture.v3_empty_project = Ok VNone /\
  (forall e, AccessInfoV3.project_domain_id Fixture.v3_empty_project
             <> Raise e).
Proof.
  repeat split; try (vm_compute; reflexivity).
  intros e. vm_compute. discriminate.
Qed.

(** C5: on a token whose [user] is an object, [user_domain_id] and
    [user_domain_name] return [id] and [name] of [user.domain]; when that
    key cannot be found they return [None] if [user] has an
    [OS-FEDERATION] key, and raise [KeyError] if it has none. *)
Theorem user_domain_lookup (self user : gmap string value) :
  self !! "user" = Some (VDict user) ->
  (forall dom v,
     user !! "domain" = Some (VDict dom) -> dom !! "id" = Some v ->
     AccessInfoV3.user_domain_id self = Ok v) /\
  (forall dom v,
     user !! "domain" = Some (VDict dom) -> dom !! "name" = Some v ->
     AccessInfoV3.user_domain_name self = Ok v) /\
  (is_Some (user !! "OS-FEDERATION") ->
     (domain_key_missing user "id" ->
      AccessInfoV3.user_domain_id self = Ok VNone) /\
     (domain_key_missing user "name" ->
      AccessInfoV3.user_domain_name self = Ok VNone)) /\
  (user !! "OS-FEDERATION" = None ->
     (domain_key_missing user "id" ->
      exists k, AccessInfoV3.user_domain_id self = Raise (KeyError k)) /\
     (domain_key_missing user "name" ->
      exists k, AccessInfoV3.user_domain_name self = Raise (KeyError k))).
Proof.
  intros Hu.
  assert (Hfed : AccessInfoV3.is_federated self
                 = Ok (VBool (bool_decide (is_Some (user !! "OS-FEDERATION"))))).
  { unfold AccessInfoV3.is_federated, dict_getitem. rewrite Hu. reflexivity. }
  unfold AccessInfoV3.user_domain_id, AccessInfoV3.user_domain_name.
  rewrite Hfed, (dict_getitem_Some _ _ _ Hu). simpl.
  split; [|split; [|split]].
  - intros dom v Hd Hv. rewrite (dict_getitem_Some _ _ _ Hd). simpl.
    rewrite (dict_getitem_Some _ _ _ Hv). reflexivity.
  - intros dom v Hd Hv. rewrite (dict_getitem_Some _ _ _ Hd). simpl.
    rewrite (dict_getitem_Some _ _ _ Hv). reflexivity.
  - intros Hf. rewrite (bool_decide_eq_true_2 _ Hf).
    split; (intros [Hd | (dom & Hd & Hk)];
            [rewrite (dict_getitem_None _ _ Hd)
            |rewrite (dict_getitem_Some _ _ _ Hd); simpl;
             rewrite (dict_getitem_None _ _ Hk)]; reflexivity).
  - intros Hf.
    assert (Hn : ~ is_Some (user !! "OS-FEDERATION"))
      by (rewrite Hf; intros [? ?]; discriminate).
    rewrite (bool_decide_eq_false_2 _ Hn).
    split; (intros [Hd | (dom & Hd & Hk)];
            [rewrite (dict_getitem_None _ _ Hd)
            |rewrite (dict_getitem_Some _ _ _ Hd); simpl;
             rewrite (dict_getitem_None _ _ Hk)]; eexists; reflexivity).
Qed.

Lemma user_domain_lookup_witness :
  Fixture.v3_scoped !! "user" = Some (VDict Fixture.v3_user) /\
  AccessInfoV3.user_domain_name Fixture.v3_scoped = Ok (VStr "Dom").
Proof.
  assert (Hu : Fixture.v3_scoped !! "user" = Some (VDict Fixture.v3_user))
    by (vm_compute; reflexivity).
  split; [exact Hu|].
  apply (proj1 (proj2 (user_domain_lookup Fixture.v3_scoped Fixture.v3_user Hu))
           Fixture.v3_project_domain (VStr "Dom")).
  - vm_compute; reflexivity.
  - vm_compute; reflexivity.
Defined.

(** ** Scoping flags *)

Lemma nonempty_entry_case (self : gmap string value) (k : string) :
  (dict_contains k self = true /\
   exists c, self !! k = Some c /\ dict_getitem self k = Ok c /\
             (truthy c = true <-> nonempty_entry self k)) \/
  (dict_contains k self = false /\ ~ nonempty_entry self k).
Proof.
  destruct (self !! k) as [c|] eqn:Hk.
  - left. split; [apply dict_contains_true; rewrite Hk; eauto|].
    exists c. split; [reflexivity|]. split; [apply dict_getitem_Some, Hk|].
    split.
    + intros Hc. exists c. split; [exact Hk | exact Hc].
    + intros (c' & Hc' & Ht). rewrite Hk in Hc'. injection Hc' as <-. exact Ht.
  - right. split; [apply dict_contains_false, Hk|].
    intros (c & Hc & _). rewrite Hk in Hc. discriminate.
Qed.

(** C6: on a V2 token whose [token] is an object, [scoped] is [True]
    exactly when [serviceCatalog] is a non-empty entry and [token.tenant]
    is present, and [False] otherwise, while [project_scoped] is the
    presence of [token.tenant]; on a V3 token, [scoped] is true exactly
    when [catalog] is a non-empty entry and [project] is present, while
    [project_scoped] is the presence of [project]. *)
Theorem scoped_and_project_scoped :
  (forall self token : gmap string value,
     self !! "token" = Some (VDict token) ->
     (exists b : bool,
        AccessInfoV2.scoped self = Ok (VBool b) /\
        (b = true <->
         nonempty_entry self "serviceCatalog" /\ is_Some (token !! "tenant"))) /\
     (exists b : bool,
        AccessInfoV2.project_scoped self = Ok (VBool b) /\
        (b = true <-> is_Some (token !! "tenant")))) /\
  (forall self : gmap string value,
     (exists v : value,
        AccessInfoV3.scoped self = Ok v /\
        (truthy v = true <->
         nonempty_entry self "catalog" /\ is_Some (self !! "project"))) /\
     (exists b : bool,
        AccessInfoV3.project_scoped self = Ok (VBool b) /\
        (b = true <-> is_Some (self !! "project")))).
Proof.
  split.
  - intros self token Htok. split.
    + unfold AccessInfoV2.scoped.
      destruct (nonempty_entry_case self "serviceCatalog")
        as [(Hin & c & _ & Hget & Hc) | (Hin & Hno)]; rewrite Hin.
      * rewrite Hget. simpl. destruct (truthy c) eqn:Ht.
        -- rewrite (dict_getitem_Some _ _ _ Htok). simpl.
           exists (bool_decide (is_Some (token !! "tenant"))).
           split; [destruct (bool_decide _); reflexivity|].
           rewrite bool_decide_eq_true. tauto.
        -- exists false. split; [reflexivity|].
           split; [discriminate|]. intros [Hne _].
           apply Hc in Hne. discriminate.
      * exists false. split; [reflexivity|].
        split; [discriminate|]. intros [Hne _]. contradiction.
    + unfold AccessInfoV2.project_scoped.
      rewrite (dict_getitem_Some _ _ _ Htok). simpl.
      exists (bool_decide (is_Some (token !! "tenant"))).
      split; [reflexivity | apply bool_decide_eq_true].
  - intros self. split.
    + unfold AccessInfoV3.scoped.
      destruct (nonempty_entry_case self "catalog")
        as [(Hin & c & _ & Hget & Hc) | (Hin & Hno)]; rewrite Hin.
      * rewrite Hget. simpl. destruct (truthy c) eqn:Ht.
        -- exists (VBool (dict_contains "project" self)).
           split; [reflexivity|]. simpl. rewrite dict_contains_true. tauto.
        -- exists c. split; [reflexivity|]. rewrite Ht.
           split; [discriminate|]. intros [Hne _].
           apply Hc in Hne. discriminate.
      * exists (VBool false). split; [reflexivity|].
        split; [discriminate|]. intros [Hne _]. contradiction.
    + unfold AccessInfoV3.project_scoped.
      exists (dict_contains "project" self).
      split; [reflexivity | apply dict_contains_true].
Qed.

Lemma scoped_and_project_scoped_witness :
  Fixture.v2_scoped !! "token" = Some (VDict Fixture.v2_token) /\
  exists b : bool,
    AccessInfoV2.scoped Fixture.v2_scoped = Ok (VBool b) /\
    (b = true <->
     nonempty_entry Fixture.v2_scoped "serviceCatalog" /\
     is_Some (Fixture.v2_token !! "tenant")).
Proof.
  assert (Htok : Fixture.v2_scoped !! "token" = Some (VDict Fixture.v2_token))
    by (vm_compute; reflexivity).
  split; [exact Htok|].
  exact (proj1 (proj1 scoped_and_project_scoped
                  Fixture.v2_scoped Fixture.v2_token Htok)).
Defined.

Example v2_scoped_true :
  AccessInfoV2.scoped Fixture.v2_scoped = Ok (VBool true) /\
  AccessInfoV2.project_scoped Fixture.v2_scoped = Ok (VBool true).
Proof. split; vm_compute; reflexivity. Qed.

Example v3_scoped_true :
  AccessInfoV3.scoped Fixture.v3_scoped = Ok (VBool true) /\
  AccessInfoV3.scoped Fixture.v3_empty_project = Ok (VBool false) /\
  AccessInfoV3.project_scoped Fixture.v3_empty_project = Ok (VBool true).
Proof. repeat split; vm_compute; reflexivity. Qed.

(** ** Audit identifiers *)

Lemma getitem_int_list (l : list value) (i : nat) :
  getitem_int (VList l) (Z.of_nat i) =
  match nth_error l i with
  | Some v => Ok v
  | None => Raise IndexError
  end.
Proof.
  unfold getitem_int.
  assert (Hneg : (Z.of_nat i <? 0) = false) by (apply Z.ltb_ge; lia).
  rewrite Hneg.
  assert (Hnn : (0 <=? Z.of_nat i) = true) by (apply Z.leb_le; lia).
  rewrite Hnn, Nat2Z.id. simpl.
  destruct (Z.of_nat i <? Z.of_nat (length l)) eqn:Hlt.
  - reflexivity.
  - apply Z.ltb_ge in Hlt.
    assert (Hnone : nth_error l i = None) by (apply nth_error_None; lia).
    rewrite Hnone. reflexivity.
Qed.

Lemma index_or_None (l : list value) (i : nat) :
  except_IndexError (getitem_int (VList l) (Z.of_nat i)) (Ok VNone)
  = Ok (element_or_None l i).
Proof.
  rewrite getitem_int_list. unfold element_or_None.
  destruct (nth_error l i); reflexivity.
Qed.

Section Audit.
Context `{CatalogBuilder}.

Lemma audit_at_index (self : instance) (l : list value) :
  audit_ids_of self = Some (VList l) ->
  AccessInfo.audit_id self = Ok (element_or_None l 0) /\
  AccessInfo.audit_chain_id self = Ok (element_or_None l 1).
Proof.
  unfold audit_ids_of, AccessInfo.audit_id, AccessInfo.audit_chain_id.
  destruct (class_of self); [discriminate| |].
  - destruct (fields self !! "token") as [[| | | | |token]|] eqn:Htok;
      try discriminate.
    intros Hl. injection Hl as Hl.
    unfold AccessInfoV2.audit_id, AccessInfoV2.audit_chain_id.
    rewrite (dict_getitem_Some _ _ _ Htok). simpl.
    unfold dict_get in Hl. rewrite Hl.
    split; [apply (index_or_None l 0) | apply (index_or_None l 1)].
  - intros Hl. injection Hl as Hl.
    unfold AccessInfoV3.audit_id, AccessInfoV3.audit_chain_id.
    rewrite Hl.
    split; [apply (index_or_None l 0) | apply (index_or_None l 1)].
Qed.

(** C8, as amended: for both adapters, when the [audit_ids] entry is a
    list (an empty one standing for a missing key), [audit_id] is its first
    element and [audit_chain_id] its second, each [None] when the index is
    out of range; [initial_audit_id] is [audit_chain_id] when that is
    non-empty (true as a truth value) and [audit_id] otherwise. *)
Theorem audit_ids_lookup (self : instance) (l : list value) :
  audit_ids_of self = Some (VList l) ->
  AccessInfo.audit_id self = Ok (element_or_None l 0) /\
  AccessInfo.audit_chain_id self = Ok (element_or_None l 1) /\
  AccessInfo.initial_audit_id self =
    Ok (if truthy (element_or_None l 1)
        then element_or_None l 1
        else element_or_None l 0).
Proof.
  intros Hl. destruct (audit_at_index self l Hl) as [Ha Hc].
  split; [exact Ha|]. split; [exact Hc|].
  unfold AccessInfo.initial_audit_id. rewrite Hc. simpl.
  destruct (truthy (element_or_None l 1)); [reflexivity | exact Ha].
Qed.

End Audit.

Lemma audit_ids_lookup_witness :
  let self := Fixture.v3_instance Fixture.v3_scoped in
  audit_ids_of self = Some (VList [VStr "a1"; VStr "a0"]) /\
  AccessInfo.audit_id self = Ok (VStr "a1") /\
  AccessInfo.audit_chain_id self = Ok (VStr "a0") /\
  AccessInfo.initial_audit_id self = Ok (VStr "a0").
Proof.
  intros self.
  assert (Hl : audit_ids_of self = Some (VList [VStr "a1"; VStr "a0"]))
    by (vm_compute; reflexivity).
  split; [exact Hl|].
  exact (audit_ids_lookup self [VStr "a1"; VStr "a0"] Hl).
Defined.

(** C8, as stated, fails: with an empty string as second audit id,
    [audit_chain_id] is present (it is that string, not [None]) and yet
    [initial_audit_id] is [audit_id]. *)
Lemma initial_audit_id_empty_chain :
  let self := Fixture.v3_instance Fixture.v3_empty_chain in
  audit_ids_of self = Some (VList [VStr "a1"; VStr ""]) /\
  AccessInfo.audit_id self = Ok (VStr "a1") /\
  AccessInfo.audit_chain_id self = Ok (VStr "") /\
  AccessInfo.audit_chain_id self <> Ok VNone /\
  AccessInfo.initial_audit_id self = Ok (VStr "a1") /\
  AccessInfo.initial_audit_id self <> AccessInfo.audit_chain_id self.
Proof.
  intros self. repeat split; try (vm_compute; reflexivity);
    vm_compute; discriminate.
Qed.

(** ** Construction and the factory *)

Section Construction.
Context `{CatalogBuilder}.

Lemma V3_init_ok (token : value) (kwargs : gmap string value)
    (catalog : ServiceCatalog) :
  ServiceCatalog_factory (<["version" := VStr "v3"]> kwargs) token
    = Ok catalog ->
  AccessInfoV3.__init__ token kwargs =
  Ok {| class_of := ClassAccessInfoV3;
        fields := if truthy token
                  then <["auth_token" := token]>
                         (<["version" := VStr "v3"]> kwargs)
                  else <["version" := VStr "v3"]> kwargs;
        service_catalog := catalog |}.
Proof.
  intros Hc. unfold AccessInfoV3.__init__. rewrite Hc. reflexivity.
Qed.

Lemma V2_init_ok (kwargs token : gmap string value) (token_id : value)
    (catalog : ServiceCatalog) :
  kwargs !! "token" = Some (VDict token) ->
  token !! "id" = Some token_id ->
  ServiceCatalog_factory (<["version" := VStr "v2.0"]> kwargs) token_id
    = Ok catalog ->
  AccessInfoV2.__init__ kwargs =
  Ok {| class_of := ClassAccessInfoV2;
        fields := <["version" := VStr "v2.0"]> kwargs;
        service_catalog := catalog |}.
Proof.
  intros Htok Hid Hc. unfold AccessInfoV2.__init__.
  assert (Hl : <["version" := VStr "v2.0"]> kwargs !! "token"
               = Some (VDict token))
    by (rewrite lookup_insert_ne by discriminate; exact Htok).
  rewrite (dict_getitem_Some _ _ _ Hl). simpl.
  rewrite (dict_getitem_Some _ _ _ Hid). simpl.
  rewrite Hc. reflexivity.
Qed.






(** A true response whose body is decoded on demand: the factory does what
    it does on the decoded body, with the [X-Subject-Token] header standing
    in for a missing [auth_token]. *)
Lemma create_from_response (r : response) (body b auth_token : value) :
  resp_bool r = true ->
  truthy body = false ->
  resp_json r = Ok b ->
  create (Some r) body auth_token =
  create None b
    (if truthy auth_token then auth_token
     else dict_get (resp_headers r) "X-Subject-Token" VNone).
Proof.
  intros Hr Hb Hj. unfold create. rewrite Hr, Hb, Hj. simpl.
  destruct (contains "token" b) as [[|]|e]; simpl; try reflexivity.
  destruct (truthy auth_token); reflexivity.
Qed.




(** C10, as amended: an [AccessInfoV3] constructed with a false token
    ([None] or the empty string) over a body that has no [auth_token] key
    of its own raises [KeyError] from [auth_token]; constructed with a
    true token it returns that token; an [AccessInfoV2] constructed over a
    payload with no [auth_token] key returns [token.id]; and an
    [AccessInfoV3] constructed with a false token over a body that has an
    [auth_token] key returns that entry. *)
Theorem auth_token_fallback :
  (forall (token : value) (kwargs : gmap string value)
          (catalog : ServiceCatalog),
     truthy token = false ->
     kwargs !! "auth_token" = None ->
     ServiceCatalog_factory (<["version" := VStr "v3"]> kwargs) token
       = Ok catalog ->
     exists self : instance,
       AccessInfoV3.__init__ token kwargs = Ok self /\
       AccessInfo.auth_token self = Raise (KeyError (VStr "auth_token"))) /\
  (forall (token : value) (kwargs : gmap string value)
          (catalog : ServiceCatalog),
     truthy token = true ->
     ServiceCatalog_factory (<["version" := VStr "v3"]> kwargs) token
       = Ok catalog ->
     exists self : instance,
       AccessInfoV3.__init__ token kwargs = Ok self /\
       AccessInfo.auth_token self = Ok token) /\
  (forall (kwargs token : gmap string value) (token_id : value)
          (catalog : ServiceCatalog),
     kwargs !! "auth_token" = None ->
     kwargs !! "token" = Some (VDict token) ->
     token !! "id" = Some token_id ->
     ServiceCatalog_factory (<["version" := VStr "v2.0"]> kwargs) token_id
       = Ok catalog ->
     exists self : instance,
       AccessInfoV2.__init__ kwargs = Ok self /\
       AccessInfo.auth_token self = Ok token_id) /\
  (forall (token v : value) (kwargs : gmap string value)
          (catalog : ServiceCatalog),
     truthy token = false ->
     kwargs !! "auth_token" = Some v ->
     ServiceCatalog_factory (<["version" := VStr "v3"]> kwargs) token
       = Ok catalog ->
     exists self : instance,
       AccessInfoV3.__init__ token kwargs = Ok self /\
       AccessInfo.auth_token self = Ok v).
Proof.
  split; [|split; [|split]].
  - intros token kwargs catalog Hf Hk Hc.
    rewrite (V3_init_ok token kwargs catalog Hc). rewrite Hf.
    eexists. split; [reflexivity|].
    unfold AccessInfo.auth_token. simpl.
    apply dict_getitem_None.
    rewrite lookup_insert_ne by discriminate. exact Hk.
  - intros token kwargs catalog Ht Hc.
    rewrite (V3_init_ok token kwargs catalog Hc). rewrite Ht.
    eexists. split; [reflexivity|].
    unfold AccessInfo.auth_token. simpl.
    apply dict_getitem_Some, lookup_insert_eq.
  - intros kwargs token token_id catalog Hk Ht Hid Hc.
    rewrite (V2_init_ok kwargs token token_id catalog Ht Hid Hc).
    eexists. split; [reflexivity|].
    unfold AccessInfo.auth_token, AccessInfoV2.auth_token. simpl.
    rewrite dict_getitem_None
      by (rewrite lookup_insert_ne by discriminate; exact Hk).
    unfold except_KeyError. simpl.
    rewrite (dict_getitem_Some (<["version" := VStr "v2.0"]> kwargs)
               "token" (VDict token))
      by (rewrite lookup_insert_ne by discriminate; exact Ht).
    simpl. apply dict_getitem_Some, Hid.
  - intros token v kwargs catalog Hf Hk Hc.
    rewrite (V3_init_ok token kwargs catalog Hc). rewrite Hf.
    eexists. split; [reflexivity|].
    unfold AccessInfo.auth_token. simpl.
    apply dict_getitem_Some.
    rewrite lookup_insert_ne by discriminate. exact Hk.
Qed.

End Construction.


Lemma auth_token_fallback_witness :
  exists self : @instance Fixture.catalog,
    AccessInfoV3.__init__ VNone Fixture.v3_body_token = Ok self /\
    AccessInfo.auth_token self = Raise (KeyError (VStr "auth_token")).
Proof.
  apply (proj1 (@auth_token_fallback Fixture.catalog)
           VNone Fixture.v3_body_token
           (<["version" := VStr "v3"]> Fixture.v3_body_token, VNone)).
  - reflexivity.
  - vm_compute; reflexivity.
  - reflexivity.
Defined.


(** C10, as stated, fails: constructed without a token over a body that
    has an [auth_token] key, an [AccessInfoV3] returns that entry and
    raises nothing. *)
Lemma auth_token_from_body :
  truthy VNone = false /\
  exists self : @instance Fixture.catalog,
    create None (VDict Fixture.v3_saved_body) VNone = Ok self /\
    AccessInfoV3.__init__ VNone Fixture.v3_saved = Ok self /\
    class_of self = ClassAccessInfoV3 /\
    AccessInfo.auth_token self = Ok (VStr "tok-old") /\
    (forall e, AccessInfo.auth_token self <> Raise e).
Proof.
  split; [reflexivity|].
  eexists. split; [vm_compute; reflexivity|].
  split; [vm_compute; reflexivity|].
  split; [reflexivity|].
  split; [vm_compute; reflexivity|].
  intros e. vm_compute. discriminate.
Qed.

(** ** The end-to-end examples *)

Example create_v2_end_to_end :
  exists self : @instance Fixture.catalog,
    create None (VDict Fixture.v2_body) VNone = Ok self /\
    AccessInfo.auth_token self = Ok (VStr "t1") /\
    AccessInfo.project_id self = Ok (VStr "p1") /\
    AccessInfo.project_name self = Ok (VStr "proj") /\
    AccessInfo.tenant_id self = Ok (VStr "p1") /\
    AccessInfoV2.user_domain_id (fields self) = Ok (VStr "default") /\
    AccessInfoV2.project_scoped (fields self) = Ok (VBool true) /\
    AccessInfo.version self = VStr "v2.0".
Proof.
  exists Fixture.v2_created.
  repeat split; vm_compute; reflexivity.
Qed.

Example create_v3_end_to_end :
  exists self : @instance Fixture.catalog,
    create None (VDict Fixture.v3_body) (VStr "tok-xyz") = Ok self /\
    AccessInfo.version self = VStr "v3" /\
    AccessInfo.auth_token self = Ok (VStr "tok-xyz") /\
    AccessInfo.audit_id self = Ok (VStr "a1") /\
    AccessInfo.audit_chain_id self = Ok VNone /\
    AccessInfo.initial_audit_id self = Ok (VStr "a1").
Proof.
  exists Fixture.v3_created.
  repeat split; vm_compute; reflexivity.
Qed.

Example create_neither_key :
  @create Fixture.catalog None (Fixture.obj [("error", VStr "nope")]) VNone
  = Raise (NotImplementedError "Unrecognized auth response").
Proof. vm_compute. reflexivity. Qed.

Example create_token_takes_precedence :
  exists self : @instance Fixture.catalog,
    create None
      (Fixture.obj [("token", VDict Fixture.v3_body_token);
                    ("access", VDict Fixture.v2_scoped)])
      (VStr "tok-xyz") = Ok self /\
    class_of self = ClassAccessInfoV3.
Proof.
  exists Fixture.v3_created. split; [vm_compute; reflexivity | reflexivity].
Qed.

(** * Further properties of the module *)

(** ** The [auth_token] override *)

Section AuthTokenOverride.
Context `{CatalogBuilder}.

(** X1: after the [auth_token] setter, the getter returns the value that
    was set, on an instance of any class (for [AccessInfoV2] the override
    wins over [token.id]); the setter leaves the class, the catalog and
    every other key as they were. *)
Theorem auth_token_set_then_get (self : instance) (v : value) :
  AccessInfo.auth_token (AccessInfo.set_auth_token self v) = Ok v /\
  class_of (AccessInfo.set_auth_token self v) = class_of self /\
  service_catalog (AccessInfo.set_auth_token self v) = service_catalog self /\
  (forall k, k <> "auth_token" ->
     fields (AccessInfo.set_auth_token self v) !! k = fields self !! k).
Proof.
  split; [|split; [|split]]; try reflexivity.
  - unfold AccessInfo.auth_token, AccessInfo.set_auth_token. simpl.
    assert (Hl : dict_getitem (<["auth_token" := v]> (fields self))
                   "auth_token" = Ok v)
      by apply dict_getitem_Some, lookup_insert_eq.
    destruct (class_of self); try exact Hl.
    unfold AccessInfoV2.auth_token. rewrite Hl. reflexivity.
  - intros k Hk. simpl. apply lookup_insert_ne. congruence.
Qed.

(** X2: the [auth_token] deleter undoes the setter and is idempotent;
    after it the getter of an [AccessInfoV2] falls back to [token.id],
    and the getter of any other class raises [KeyError]; on an instance
    without the key it changes nothing. *)
Theorem auth_token_delete (self : instance) (v : value) :
  AccessInfo.del_auth_token (AccessInfo.set_auth_token self v)
    = AccessInfo.del_auth_token self /\
  AccessInfo.del_auth_token (AccessInfo.del_auth_token self)
    = AccessInfo.del_auth_token self /\
  (class_of self = ClassAccessInfoV2 ->
     AccessInfo.auth_token (AccessInfo.del_auth_token self) =
     (do token <- dict_getitem (fields self) "token"; getitem token "id")) /\
  (class_of self <> ClassAccessInfoV2 ->
     AccessInfo.auth_token (AccessInfo.del_auth_token self) =
     Raise (KeyError (VStr "auth_token"))) /\
  (fields self !! "auth_token" = None ->
     AccessInfo.del_auth_token self = self).
Proof.
  destruct self as [c d sc].
  unfold AccessInfo.del_auth_token, AccessInfo.set_auth_token,
    AccessInfo.with_fields, AccessInfo.auth_token. simpl.
  split; [|split; [|split; [|split]]].
  - rewrite delete_insert_eq. reflexivity.
  - rewrite delete_delete_eq. reflexivity.
  - intros ->. unfold AccessInfoV2.auth_token.
    rewrite (dict_getitem_None (delete "auth_token" d) "auth_token")
      by apply lookup_delete_eq.
    unfold except_KeyError. simpl.
    unfold dict_getitem.
    rewrite lookup_delete_ne by discriminate.
    destruct (d !! "token") as [t|]; simpl; [|reflexivity].
    destruct (getitem t "id"); reflexivity.
  - intros Hc.
    assert (Hl : dict_getitem (delete "auth_token" d) "auth_token"
                 = Raise (KeyError (VStr "auth_token")))
      by apply dict_getitem_None, lookup_delete_eq.
    destruct c; [exact Hl | contradiction | exact Hl].
  - intros Hk. rewrite (delete_id _ _ Hk). reflexivity.
Qed.

End AuthTokenOverride.

Lemma auth_token_delete_witness :
  let self := Fixture.v2_instance Fixture.v2_scoped in
  class_of self = ClassAccessInfoV2 /\
  AccessInfo.auth_token (AccessInfo.del_auth_token self) = Ok (VStr "t1").
Proof.
  intros self. split; [reflexivity|].
  rewrite (proj1 (proj2 (proj2
             (@auth_token_delete Fixture.catalog self VNone))) eq_refl).
  vm_compute. reflexivity.
Defined.

(** ** The factory and a response object *)

Section Factory.
Context `{CatalogBuilder}.

(** The bearer value the factory ends up with when a true response is
    given: the [auth_token] argument if it is true, else the
    [X-Subject-Token] header, [None] when there is none. *)
Lemma create_header_token (r : response) (body auth_token : value) :
  resp_bool r = true ->
  create (Some r) body auth_token =
  (do b <- (if truthy body then Ok body else resp_json r);
   create None b
     (if truthy auth_token then auth_token
      else dict_get (resp_headers r) "X-Subject-Token" VNone)).
Proof.
  intros Hr. unfold create. rewrite Hr. simpl.
  destruct (truthy body); simpl.
  - destruct (contains "token" body) as [[|]|e]; simpl; try reflexivity.
    destruct (truthy auth_token); reflexivity.
  - destruct (resp_json r) as [b|e]; simpl; [|reflexivity].
    destruct (contains "token" b) as [[|]|e]; simpl; try reflexivity.
    destruct (truthy auth_token); reflexivity.
Qed.

(** X3: a response whose truth value is false is ignored altogether; with
    a true response, a true [body] argument is used as it is and
    [resp.json()] is not called, a false one is replaced by the outcome of
    [resp.json()], whose exception propagates; in both cases a false
    [auth_token] argument is replaced by the [X-Subject-Token] header. *)
Theorem create_with_response (r : response) (body auth_token : value) :
  (resp_bool r = false ->
     create (Some r) body auth_token = create None body auth_token) /\
  (resp_bool r = true -> truthy body = true ->
     create (Some r) body auth_token =
     create None body
       (if truthy auth_token then auth_token
        else dict_get (resp_headers r) "X-Subject-Token" VNone)) /\
  (resp_bool r = true -> truthy body = false ->
     (forall b, resp_json r = Ok b ->
        create (Some r) body auth_token =
        create None b
          (if truthy auth_token then auth_token
           else dict_get (resp_headers r) "X-Subject-Token" VNone)) /\
     (forall e, resp_json r = Raise e ->
        create (Some r) body auth_token = Raise e)).
Proof.
  split; [|split].
  - intros Hr. unfold create. rewrite Hr. reflexivity.
  - intros Hr Hb. rewrite (create_header_token r body auth_token Hr).
    rewrite Hb. reflexivity.
  - intros Hr Hb. rewrite (create_header_token r body auth_token Hr).
    rewrite Hb. split.
    + intros b ->. reflexivity.
    + intros e ->. reflexivity.
Qed.

Lemma V3_init_inv (token : value) (kwargs : gmap string value)
    (self : instance) :
  AccessInfoV3.__init__ token kwargs = Ok self ->
  class_of self = ClassAccessInfoV3 /\
  fields self !! "version" = Some (VStr "v3") /\
  ServiceCatalog_factory (<["version" := VStr "v3"]> kwargs) token
    = Ok (service_catalog self) /\
  fields self = (if truthy token
                 then <["auth_token" := token]>
                        (<["version" := VStr "v3"]> kwargs)
                 else <["version" := VStr "v3"]> kwargs).
Proof.
  unfold AccessInfoV3.__init__.
  destruct (ServiceCatalog_factory _ token) as [c|e]; simpl; [|discriminate].
  intros Hs. injection Hs as <-. simpl.
  split; [reflexivity|]. split; [|split; reflexivity].
  destruct (truthy token).
  - rewrite lookup_insert_ne by discriminate. apply lookup_insert_eq.
  - apply lookup_insert_eq.
Qed.

Lemma V2_init_inv (kwargs : gmap string value) (self : instance) :
  AccessInfoV2.__init__ kwargs = Ok self ->
  class_of self = ClassAccessInfoV2 /\
  fields self = <["version" := VStr "v2.0"]> kwargs /\
  exists (token : gmap string value) (token_id : value),
    kwargs !! "token" = Some (VDict token) /\
    token !! "id" = Some token_id /\
    ServiceCatalog_factory (<["version" := VStr "v2.0"]> kwargs) token_id
      = Ok (service_catalog self).
Proof.
  unfold AccessInfoV2.__init__. unfold dict_getitem at 1.
  rewrite lookup_insert_ne by discriminate.
  destruct (kwargs !! "token") as [[| | | | |token]|] eqn:Htok; simpl;
    try discriminate.
  unfold dict_getitem.
  destruct (token !! "id") as [token_id|] eqn:Hid; simpl; [|discriminate].
  destruct (ServiceCatalog_factory _ token_id) as [c|e] eqn:Hc; simpl;
    [|discriminate].
  intros Hs. injection Hs as <-. simpl.
  split; [reflexivity|]. split; [reflexivity|].
  exists token, token_id. split; [reflexivity|]. split; [exact Hid|exact Hc].
Qed.

(** X4: whatever the arguments, an instance the factory returns is an
    [AccessInfoV3] whose [version] is [v3] or an [AccessInfoV2] whose
    [version] is [v2.0]; it is never of the base class, and the stamp
    overrides any [version] key of the payload. *)
Theorem create_stamps_version (resp : option response)
    (body auth_token : value) (self : instance) :
  create resp body auth_token = Ok self ->
  (class_of self = ClassAccessInfoV3 /\ AccessInfo.version self = VStr "v3") \/
  (class_of self = ClassAccessInfoV2 /\ AccessInfo.version self = VStr "v2.0").
Proof.
  unfold create.
  destruct (match resp with
            | Some r => if resp_bool r && negb (truthy body)
                        then resp_json r else Ok body
            | None => Ok body
            end) as [b|e]; simpl; [|discriminate].
  destruct (contains "token" b) as [[|]|e]; simpl; [| |discriminate].
  - destruct (getitem b "token") as [t|e]; simpl; [|discriminate].
    destruct (bind_kwargs ["self"; "token"] t) as [kw|e]; simpl;
      [|discriminate].
    intros Hs. apply V3_init_inv in Hs as (Hc & Hv & _). left.
    split; [exact Hc|]. unfold AccessInfo.version, dict_get.
    rewrite Hv. reflexivity.
  - destruct (contains "access" b) as [[|]|e]; simpl; try discriminate.
    destruct (getitem b "access") as [a|e]; simpl; [|discriminate].
    destruct (bind_kwargs ["self"] a) as [kw|e]; simpl; [|discriminate].
    intros Hs. apply V2_init_inv in Hs as (Hc & Hf & _). right.
    split; [exact Hc|]. unfold AccessInfo.version, dict_get.
    rewrite Hf, lookup_insert_eq. reflexivity.
Qed.

(** X5: on an [AccessInfoV2] that its constructor returned, [auth_token]
    always returns a value: the [auth_token] entry of the payload if it
    has one, else [token.id], which the constructor has read. *)
Theorem V2_constructed_auth_token (kwargs : gmap string value)
    (self : instance) :
  AccessInfoV2.__init__ kwargs = Ok self ->
  exists (token : gmap string value) (token_id : value),
    fields self !! "token" = Some (VDict token) /\
    token !! "id" = Some token_id /\
    AccessInfo.auth_token self =
      Ok (match kwargs !! "auth_token" with
          | Some v => v
          | None => token_id
          end).
Proof.
  intros Hs.
  destruct (V2_init_inv kwargs self Hs)
    as (Hc & Hf & token & token_id & Htok & Hid & _).
  exists token, token_id.
  assert (Ht : fields self !! "token" = Some (VDict token))
    by (rewrite Hf, lookup_insert_ne by discriminate; exact Htok).
  split; [exact Ht|]. split; [exact Hid|].
  unfold AccessInfo.auth_token. rewrite Hc.
  unfold AccessInfoV2.auth_token.
  unfold dict_getitem at 1. rewrite Hf.
  rewrite lookup_insert_ne by discriminate.
  destruct (kwargs !! "auth_token") as [v|]; [reflexivity|].
  unfold except_KeyError. simpl. rewrite <- Hf.
  rewrite (dict_getitem_Some _ _ _ Ht). simpl.
  apply dict_getitem_Some, Hid.
Qed.

(** X6: the [AccessInfoV2] constructor reads [token.id] before it calls
    the catalog builder: without a [token] key, or without an [id] in
    it, it raises [KeyError] whatever the builder would do, and with a
    [token] that is a string it raises [TypeError].  The [AccessInfoV3]
    constructor reads nothing of the payload: it fails exactly when the
    builder does, with the builder's exception. *)
Theorem constructor_failures (kwargs : gmap string value) :
  (kwargs !! "token" = None ->
     AccessInfoV2.__init__ kwargs = Raise (KeyError (VStr "token"))) /\
  (forall token : gmap string value,
     kwargs !! "token" = Some (VDict token) -> token !! "id" = None ->
     AccessInfoV2.__init__ kwargs = Raise (KeyError (VStr "id"))) /\
  (forall s : string,
     kwargs !! "token" = Some (VStr s) ->
     AccessInfoV2.__init__ kwargs = Raise TypeError) /\
  (forall (token : value) (e : exn),
     AccessInfoV3.__init__ token kwargs = Raise e <->
     ServiceCatalog_factory (<["version" := VStr "v3"]> kwargs) token
       = Raise e).
Proof.
  split; [|split; [|split]].
  - intros Ht. unfold AccessInfoV2.__init__.
    rewrite dict_getitem_None
      by (rewrite lookup_insert_ne by discriminate; exact Ht).
    reflexivity.
  - intros token Ht Hid. unfold AccessInfoV2.__init__.
    rewrite (dict_getitem_Some _ "token" (VDict token))
      by (rewrite lookup_insert_ne by discriminate; exact Ht).
    simpl. rewrite (dict_getitem_None _ _ Hid). reflexivity.
  - intros s Ht. unfold AccessInfoV2.__init__.
    rewrite (dict_getitem_Some _ "token" (VStr s))
      by (rewrite lookup_insert_ne by discriminate; exact Ht).
    reflexivity.
  - intros token e. unfold AccessInfoV3.__init__.
    destruct (ServiceCatalog_factory _ token) as [c|e']; simpl.
    + split; discriminate.
    + split; intros Hr; injection Hr as ->; reflexivity.
Qed.

End Factory.

Lemma create_with_response_witness :
  @create Fixture.catalog (Some Fixture.v3_response) VNone VNone =
  create None (VDict Fixture.v3_body) (VStr "tok-hdr").
Proof.
  exact (proj1 (proj2 (proj2
           (@create_with_response Fixture.catalog Fixture.v3_response
              VNone VNone)) eq_refl eq_refl)
           (VDict Fixture.v3_body) eq_refl).
Defined.

Lemma create_stamps_version_witness :
  create None (VDict Fixture.v2_body) VNone = Ok Fixture.v2_created /\
  ((class_of Fixture.v2_created = ClassAccessInfoV3 /\
    AccessInfo.version Fixture.v2_created = VStr "v3") \/
   (class_of Fixture.v2_created = ClassAccessInfoV2 /\
    AccessInfo.version Fixture.v2_created = VStr "v2.0")).
Proof.
  assert (Hc : create None (VDict Fixture.v2_body) VNone
               = Ok Fixture.v2_created) by (vm_compute; reflexivity).
  split; [exact Hc|].
  exact (@create_stamps_version Fixture.catalog None
           (VDict Fixture.v2_body) VNone Fixture.v2_created Hc).
Defined.

Lemma V2_constructed_auth_token_witness :
  AccessInfoV2.__init__ Fixture.v2_scoped = Ok Fixture.v2_created /\
  exists (token : gmap string value) (token_id : value),
    fields Fixture.v2_created !! "token" = Some (VDict token) /\
    token !! "id" = Some token_id /\
    AccessInfo.auth_token Fixture.v2_created =
      Ok (match Fixture.v2_scoped !! "auth_token" with
          | Some v => v
          | None => token_id
          end).
Proof.
  assert (Hc : AccessInfoV2.__init__ Fixture.v2_scoped
               = Ok Fixture.v2_created) by (vm_compute; reflexivity).
  split; [exact Hc|].
  exact (@V2_constructed_auth_token Fixture.catalog Fixture.v2_scoped
           Fixture.v2_created Hc).
Defined.

Lemma constructor_failures_witness :
  Fixture.v3_body_token !! "token" = None /\
  @AccessInfoV2.__init__ Fixture.catalog Fixture.v3_body_token
    = Raise (KeyError (VStr "token")).
Proof.
  assert (Ht : Fixture.v3_body_token !! "token" = None)
    by (vm_compute; reflexivity).
  split; [exact Ht|].
  exact (proj1 (@constructor_failures Fixture.catalog Fixture.v3_body_token)
           Ht).
Defined.

(** ** Scoping flags against the other accessors *)

(** X7: for both adapters, a token that is [scoped] is [project_scoped]
    and has a service catalog; and a token without a service catalog
    entry is not [scoped], whatever else it holds (for V2 even when its
    [token] entry is missing, which [project_scoped] would not
    survive). *)
Theorem scoped_implies_project_scoped (self : gmap string value) :
  (AccessInfoV2.scoped self = Ok (VBool true) ->
     AccessInfoV2.project_scoped self = Ok (VBool true) /\
     AccessInfoV2.has_service_catalog self = true) /\
  (AccessInfoV2.has_service_catalog self = false ->
     AccessInfoV2.scoped self = Ok (VBool false)) /\
  (forall v, AccessInfoV3.scoped self = Ok v -> truthy v = true ->
     AccessInfoV3.project_scoped self = Ok (VBool true) /\
     AccessInfoV3.has_service_catalog self = true) /\
  (AccessInfoV3.has_service_catalog self = false ->
     AccessInfoV3.scoped self = Ok (VBool false)).
Proof.
  unfold AccessInfoV2.scoped, AccessInfoV2.project_scoped,
    AccessInfoV2.has_service_catalog, AccessInfoV3.scoped,
    AccessInfoV3.project_scoped, AccessInfoV3.has_service_catalog.
  split; [|split; [|split]].
  - destruct (dict_contains "serviceCatalog" self); [|discriminate].
    destruct (dict_getitem self "serviceCatalog") as [c|e]; simpl;
      [|discriminate].
    destruct (truthy c); [|discriminate].
    destruct (dict_getitem self "token") as [t|e]; simpl; [|discriminate].
    destruct (contains "tenant" t) as [[|]|e]; simpl; try discriminate.
    intros _. split; reflexivity.
  - intros ->. reflexivity.
  - intros v. destruct (dict_contains "catalog" self);
      [|intros Hv; injection Hv as <-; discriminate].
    destruct (dict_getitem self "catalog") as [c|e]; simpl; [|discriminate].
    destruct (truthy c) eqn:Hc.
    + intros Hv. injection Hv as <-. simpl. intros ->. split; reflexivity.
    + intros Hv. injection Hv as <-. rewrite Hc. discriminate.
  - intros ->. reflexivity.
Qed.

Lemma scoped_implies_project_scoped_witness :
  AccessInfoV2.scoped Fixture.v2_scoped = Ok (VBool true) /\
  AccessInfoV2.project_scoped Fixture.v2_scoped = Ok (VBool true) /\
  AccessInfoV2.has_service_catalog Fixture.v2_scoped = true.
Proof.
  assert (Hs : AccessInfoV2.scoped Fixture.v2_scoped = Ok (VBool true))
    by (vm_compute; reflexivity).
  split; [exact Hs|].
  exact (proj1 (scoped_implies_project_scoped Fixture.v2_scoped) Hs).
Defined.

Lemma V3_object_accessor (self : gmap string value) (k f : string) :
  let r := (let o := dict_get self k VNone in
            if truthy o then getitem o f else Ok VNone) in
  (self !! k = None -> r = Ok VNone) /\
  (forall v, r = Ok v -> v <> VNone -> dict_contains k self = true).
Proof.
  simpl. unfold dict_get. destruct (self !! k) as [o|] eqn:Hk.
  - split; [discriminate|]. intros v _ _.
    apply dict_contains_true. rewrite Hk. eauto.
  - split; [reflexivity|]. simpl. intros v Hv Hn.
    injection Hv as <-. contradiction.
Qed.

(** X8: on a V3 token without a [domain] key, [domain_id] and
    [domain_name] are [None] and [domain_scoped] is [False]; without a
    [project] key, [project_id], [project_name], [project_domain_id] and
    [project_domain_name] are [None] and [project_scoped] is [False].
    None of them raises.  Conversely, whenever [domain_id] or
    [domain_name] returns something other than [None] the token is
    [domain_scoped], and whenever [project_id] or [project_name] does
    the token is [project_scoped]. *)
Theorem V3_scope_accessors (self : gmap string value) :
  (self !! "domain" = None ->
     AccessInfoV3.domain_id self = Ok VNone /\
     AccessInfoV3.domain_name self = Ok VNone /\
     AccessInfoV3.domain_scoped self = Ok (VBool false)) /\
  (self !! "project" = None ->
     AccessInfoV3.project_id self = Ok VNone /\
     AccessInfoV3.project_name self = Ok VNone /\
     AccessInfoV3.project_domain_id self = Ok VNone /\
     AccessInfoV3.project_domain_name self = Ok VNone /\
     AccessInfoV3.project_scoped self = Ok (VBool false)) /\
  (forall v, v <> VNone ->
     AccessInfoV3.domain_id self = Ok v \/
     AccessInfoV3.domain_name self = Ok v ->
     AccessInfoV3.domain_scoped self = Ok (VBool true)) /\
  (forall v, v <> VNone ->
     AccessInfoV3.project_id self = Ok v \/
     AccessInfoV3.project_name self = Ok v ->
     AccessInfoV3.project_scoped self = Ok (VBool true)).
Proof.
  split; [|split; [|split]].
  - intros Hd.
    split; [apply (proj1 (V3_object_accessor self "domain" "id") Hd)|].
    split; [apply (proj1 (V3_object_accessor self "domain" "name") Hd)|].
    unfold AccessInfoV3.domain_scoped.
    apply dict_contains_false in Hd. rewrite Hd. reflexivity.
  - intros Hp.
    split; [apply (proj1 (V3_object_accessor self "project" "id") Hp)|].
    split; [apply (proj1 (V3_object_accessor self "project" "name") Hp)|].
    unfold AccessInfoV3.project_domain_id, AccessInfoV3.project_domain_name,
      AccessInfoV3.project_scoped, dict_get.
    rewrite Hp. simpl. split; [reflexivity|]. split; [reflexivity|].
    apply dict_contains_false in Hp. rewrite Hp. reflexivity.
  - intros v Hn Hv. unfold AccessInfoV3.domain_scoped.
    assert (Hc : dict_contains "domain" self = true).
    { destruct Hv as [Hv | Hv].
      - apply (proj2 (V3_object_accessor self "domain" "id") v Hv Hn).
      - apply (proj2 (V3_object_accessor self "domain" "name") v Hv Hn). }
    rewrite Hc. reflexivity.
  - intros v Hn Hv. unfold AccessInfoV3.project_scoped.
    assert (Hc : dict_contains "project" self = true).
    { destruct Hv as [Hv | Hv].
      - apply (proj2 (V3_object_accessor self "project" "id") v Hv Hn).
      - apply (proj2 (V3_object_accessor self "project" "name") v Hv Hn). }
    rewrite Hc. reflexivity.
Qed.

Lemma V3_scope_accessors_witness :
  Fixture.v3_body_token !! "project" = None /\
  AccessInfoV3.project_id Fixture.v3_body_token = Ok VNone /\
  AccessInfoV3.project_name Fixture.v3_body_token = Ok VNone /\
  AccessInfoV3.project_domain_id Fixture.v3_body_token = Ok VNone /\
  AccessInfoV3.project_domain_name Fixture.v3_body_token = Ok VNone /\
  AccessInfoV3.project_scoped Fixture.v3_body_token = Ok (VBool false).
Proof.
  assert (Hp : Fixture.v3_body_token !! "project" = None)
    by (vm_compute; reflexivity).
  split; [exact Hp|].
  exact (proj1 (proj2 (V3_scope_accessors Fixture.v3_body_token)) Hp).
Defined.

(** ** Expiry, further *)

Section ExpiryFurther.
Context `{CatalogBuilder} `{TimeUtils}.

(** X10: [will_expire_soon] returns nothing when [expires] raises: the
    exception propagates, whatever the duration.  So it raises [KeyError]
    on a V3 token without [expires_at] and on a V2 token whose [token]
    has no [expires], and [NotImplementedError] on the base class. *)
Theorem will_expire_soon_propagates (self : instance) (d : option Z)
    (utcnow : Z) :
  (forall e, AccessInfo.expires self = Raise e ->
     AccessInfo.will_expire_soon self d utcnow = Raise e) /\
  (class_of self = ClassAccessInfoV3 ->
   fields self !! "expires_at" = None ->
     AccessInfo.will_expire_soon self d utcnow
       = Raise (KeyError (VStr "expires_at"))) /\
  (forall token : gmap string value,
     class_of self = ClassAccessInfoV2 ->
     fields self !! "token" = Some (VDict token) ->
     token !! "expires" = None ->
     AccessInfo.will_expire_soon self d utcnow
       = Raise (KeyError (VStr "expires"))) /\
  (class_of self = ClassAccessInfo ->
     AccessInfo.will_expire_soon self d utcnow
       = Raise (NotImplementedError "")).
Proof.
  assert (Hp : forall e, AccessInfo.expires self = Raise e ->
                 AccessInfo.will_expire_soon self d utcnow = Raise e).
  { intros e He. unfold AccessInfo.will_expire_soon. rewrite He.
    reflexivity. }
  split; [exact Hp|]. split; [|split].
  - intros Hc Hk. apply Hp. unfold AccessInfo.expires. rewrite Hc.
    unfold AccessInfoV3.expires. rewrite (dict_getitem_None _ _ Hk).
    reflexivity.
  - intros token Hc Ht Hk. apply Hp. unfold AccessInfo.expires. rewrite Hc.
    unfold AccessInfoV2.expires. rewrite (dict_getitem_Some _ _ _ Ht).
    simpl. rewrite (dict_getitem_None _ _ Hk). reflexivity.
  - intros Hc. apply Hp. unfold AccessInfo.expires. rewrite Hc. reflexivity.
Qed.

End ExpiryFurther.

Lemma will_expire_soon_propagates_witness :
  let self := Fixture.v3_instance Fixture.v3_scoped in
  class_of self = ClassAccessInfoV3 /\
  fields self !! "expires_at" = None /\
  @AccessInfo.will_expire_soon Fixture.catalog Fixture.time self None 0
    = Raise (KeyError (VStr "expires_at")).
Proof.
  intros self.
  assert (Hk : fields self !! "expires_at" = None)
    by (vm_compute; reflexivity).
  split; [reflexivity|]. split; [exact Hk|].
  exact (proj1 (proj2 (@will_expire_soon_propagates Fixture.catalog
                         Fixture.time self None 0)) eq_refl Hk).
Defined.

(** ** Roles *)

Lemma comprehension_Forall2 (f : value -> result value)
    (l ys : list value) :
  comprehension f l = Ok ys <-> Forall2 (fun r y => f r = Ok y) l ys.
Proof.
  revert ys. induction l as [|r l IH]; intros ys; simpl.
  - split.
    + intros Hy. injection Hy as <-. constructor.
    + intros Hy. inversion Hy. reflexivity.
  - split.
    + destruct (f r) as [y|e] eqn:Hf; simpl; [|discriminate].
      destruct (comprehension f l) as [ys'|e] eqn:Hc; simpl; [|discriminate].
      intros Hy. injection Hy as <-. constructor; [exact Hf|].
      apply IH. reflexivity.
    + intros Hy. inversion Hy as [|r' y l' ys' Hf Hrest]; subst.
      rewrite Hf. simpl. apply IH in Hrest. rewrite Hrest. reflexivity.
Qed.

Lemma comprehension_first_failure (f : value -> result value)
    (l1 l2 : list value) (r : value) (e : exn) :
  (forall x, In x l1 -> exists y, f x = Ok y) ->
  f r = Raise e ->
  comprehension f (l1 ++ r :: l2) = Raise e.
Proof.
  intros Hok Hr. induction l1 as [|x l1 IH]; simpl.
  - rewrite Hr. reflexivity.
  - destruct (Hok x (or_introl eq_refl)) as [y ->]. simpl.
    rewrite IH; [reflexivity|].
    intros x' Hx'. apply Hok. right. exact Hx'.
Qed.

(** X11: on a V3 token whose [roles] entry is the list [rs] (the empty
    list standing for a missing key), [role_ids] returns the list [ids]
    exactly when [ids] holds the [id] of each role in order, and
    [role_names] the list [names] exactly when [names] holds the [name]
    of each role in order; so when both return, the two lists have the
    length of [rs] and correspond position by position.  Without a
    [roles] key both are the empty list. *)
Theorem V3_roles_correspond (self : gmap string value) (rs : list value) :
  dict_get self "roles" (VList []) = VList rs ->
  (forall ids,
     AccessInfoV3.role_ids self = Ok (VList ids) <->
     Forall2 (fun r y => getitem r "id" = Ok y) rs ids) /\
  (forall names,
     AccessInfoV3.role_names self = Ok (VList names) <->
     Forall2 (fun r y => getitem r "name" = Ok y) rs names) /\
  (forall ids names,
     AccessInfoV3.role_ids self = Ok (VList ids) ->
     AccessInfoV3.role_names self = Ok (VList names) ->
     length ids = length rs /\ length names = length rs) /\
  (self !! "roles" = None ->
     AccessInfoV3.role_ids self = Ok (VList []) /\
     AccessInfoV3.role_names self = Ok (VList [])).
Proof.
  intros Hr.
  assert (Hgen : forall k ys,
            (do rs' <- iterate (VList rs);
             do xs <- comprehension (fun r => getitem r k) rs';
             Ok (VList xs)) = Ok (VList ys) <->
            Forall2 (fun r y => getitem r k = Ok y) rs ys).
  { intros k ys. simpl. rewrite <- comprehension_Forall2.
    destruct (comprehension (fun r => getitem r k) rs) as [xs|e]; simpl.
    - split; intros Hx; injection Hx as ->; reflexivity.
    - split; discriminate. }
  unfold AccessInfoV3.role_ids, AccessInfoV3.role_names. rewrite Hr.
  split; [intros ids; apply Hgen|].
  split; [intros names; apply Hgen|].
  split.
  - intros ids names Hi Hn. apply Hgen in Hi. apply Hgen in Hn.
    apply Forall2_length in Hi. apply Forall2_length in Hn.
    split; congruence.
  - intros Hk. unfold dict_get in Hr. rewrite Hk in Hr.
    injection Hr as <-. split; reflexivity.
Qed.

Lemma V3_roles_correspond_witness :
  AccessInfoV3.role_ids Fixture.v3_delegated
    = Ok (VList [VStr "r1"; VStr "r2"]) /\
  AccessInfoV3.role_names Fixture.v3_delegated
    = Ok (VList [VStr "admin"; VStr "member"]).
Proof.
  pose (rs := [Fixture.obj [("id", VStr "r1"); ("name", VStr "admin")];
               Fixture.obj [("id", VStr "r2"); ("name", VStr "member")]]).
  assert (Hr : dict_get Fixture.v3_delegated "roles" (VList []) = VList rs)
    by (vm_compute; reflexivity).
  destruct (V3_roles_correspond Fixture.v3_delegated rs Hr)
    as (Hi & Hn & _).
  split.
  - apply Hi. repeat constructor.
  - apply Hn. repeat constructor.
Defined.

(** X12: on a V2 token, [role_ids] is the [roles] entry of [metadata] as
    it stands, the empty list when [metadata] or its [roles] is missing,
    and it does not look at [user]; [role_names] projects [name] out of
    the [roles] list under [user], in order: it is the empty list when
    [user] has no [roles], raises [KeyError] when there is no [user], and
    raises [KeyError] at the first role without a [name]. *)
Theorem V2_roles (self : gmap string value) :
  (self !! "metadata" = None ->
     AccessInfoV2.role_ids self = Ok (VList [])) /\
  (forall m : gmap string value,
     self !! "metadata" = Some (VDict m) ->
     AccessInfoV2.role_ids self = Ok (dict_get m "roles" (VList []))) /\
  (self !! "user" = None ->
     AccessInfoV2.role_names self = Raise (KeyError (VStr "user"))) /\
  (forall u : gmap string value,
     self !! "user" = Some (VDict u) ->
     (u !! "roles" = None ->
        AccessInfoV2.role_names self = Ok (VList [])) /\
     (forall rs names,
        u !! "roles" = Some (VList rs) ->
        (AccessInfoV2.role_names self = Ok (VList names) <->
         Forall2 (fun r y => getitem r "name" = Ok y) rs names)) /\
     (forall rs1 rs2 (r : gmap string value),
        u !! "roles" = Some (VList (rs1 ++ VDict r :: rs2)) ->
        (forall x, In x rs1 -> exists y, getitem x "name" = Ok y) ->
        r !! "name" = None ->
        AccessInfoV2.role_names self = Raise (KeyError (VStr "name")))).
Proof.
  unfold AccessInfoV2.role_ids, AccessInfoV2.role_names, dict_get.
  split; [|split; [|split; [|]]].
  - intros ->. reflexivity.
  - intros m ->. reflexivity.
  - intros Hu. rewrite (dict_getitem_None _ _ Hu). reflexivity.
  - intros u Hu. rewrite (dict_getitem_Some _ _ _ Hu). simpl.
    split; [|split].
    + intros ->. reflexivity.
    + intros rs names ->. simpl. rewrite <- comprehension_Forall2.
      destruct (comprehension _ rs) as [xs|e]; simpl.
      * split; intros Hx; injection Hx as ->; reflexivity.
      * split; discriminate.
    + intros rs1 rs2 r -> Hok Hr. simpl.
      rewrite (comprehension_first_failure _ rs1 rs2 (VDict r)
                 (KeyError (VStr "name")) Hok).
      * reflexivity.
      * simpl. apply dict_getitem_None, Hr.
Qed.

Lemma V2_roles_witness :
  Fixture.v2_scoped !! "metadata" = None /\
  AccessInfoV2.role_ids Fixture.v2_scoped = Ok (VList []).
Proof.
  assert (Hm : Fixture.v2_scoped !! "metadata" = None)
    by (vm_compute; reflexivity).
  split; [exact Hm|].
  exact (proj1 (V2_roles Fixture.v2_scoped) Hm).
Defined.

(** ** Trusts and OAuth *)

Lemma get_missing_object (self : gmap string value) (k f : string) :
  self !! k = None ->
  get (dict_get self k (VDict ∅)) f VNone = Ok VNone.
Proof. intros Hk. unfold dict_get. rewrite Hk. reflexivity. Qed.

(** X13: on a V2 token without a [trust] key, [trust_id] and
    [trustee_user_id] are [None] and [trust_scoped] is [False]; with a
    [trust] object they are its [id] and [trustee_user_id] entries
    ([None] for a missing one) and [trust_scoped] is [True], while
    [trustor_user_id] stays [None]; with a [trust] entry that is [None]
    they raise [AttributeError]. *)
Theorem V2_trust (self : gmap string value) :
  (self !! "trust" = None ->
     AccessInfoV2.trust_id self = Ok VNone /\
     AccessInfoV2.trustee_user_id self = Ok VNone /\
     AccessInfoV2.trust_scoped self = Ok (VBool false)) /\
  (forall t : gmap string value,
     self !! "trust" = Some (VDict t) ->
     AccessInfoV2.trust_id self = Ok (dict_get t "id" VNone) /\
     AccessInfoV2.trustee_user_id self
       = Ok (dict_get t "trustee_user_id" VNone) /\
     AccessInfoV2.trustor_user_id self = Ok VNone /\
     AccessInfoV2.trust_scoped self = Ok (VBool true)) /\
  (self !! "trust" = Some VNone ->
     AccessInfoV2.trust_id self = Raise AttributeError /\
     AccessInfoV2.trustee_user_id self = Raise AttributeError /\
     AccessInfoV2.trust_scoped self = Ok (VBool true)).
Proof.
  unfold AccessInfoV2.trust_id, AccessInfoV2.trustee_user_id,
    AccessInfoV2.trust_scoped, AccessInfoV2.trustor_user_id.
  split; [|split].
  - intros Ht. rewrite !(get_missing_object _ _ _ Ht).
    apply dict_contains_false in Ht. rewrite Ht. repeat split.
  - intros t Ht.
    assert (Hc : dict_contains "trust" self = true)
      by (apply dict_contains_true; rewrite Ht; eauto).
    rewrite Hc. unfold dict_get at 1 3. rewrite Ht. repeat split.
  - intros Ht.
    assert (Hc : dict_contains "trust" self = true)
      by (apply dict_contains_true; rewrite Ht; eauto).
    rewrite Hc. unfold dict_get. rewrite Ht. repeat split.
Qed.

Lemma V2_trust_witness :
  Fixture.v2_scoped !! "trust" = None /\
  AccessInfoV2.trust_id Fixture.v2_scoped = Ok VNone /\
  AccessInfoV2.trustee_user_id Fixture.v2_scoped = Ok VNone /\
  AccessInfoV2.trust_scoped Fixture.v2_scoped = Ok (VBool false).
Proof.
  assert (Ht : Fixture.v2_scoped !! "trust" = None)
    by (vm_compute; reflexivity).
  split; [exact Ht|].
  exact (proj1 (V2_trust Fixture.v2_scoped) Ht).
Defined.

(** X14: on a V3 token without an [OS-TRUST:trust] key, [trust_id],
    [trustee_user_id] and [trustor_user_id] are [None] and [trust_scoped]
    is [False]; with a trust object, [trust_id] is its [id] and the two
    user ids are the [id] of its [trustee_user] and [trustor_user]
    objects, each [None] when the object or its [id] is missing.
    Without an [OS-OAUTH1] key both OAuth accessors are [None]; with an
    object there they are its [access_token_id] and [consumer_id]. *)
Theorem V3_trust_oauth (self : gmap string value) :
  (self !! "OS-TRUST:trust" = None ->
     AccessInfoV3.trust_id self = Ok VNone /\
     AccessInfoV3.trustee_user_id self = Ok VNone /\
     AccessInfoV3.trustor_user_id self = Ok VNone /\
     AccessInfoV3.trust_scoped self = Ok (VBool false)) /\
  (forall t : gmap string value,
     self !! "OS-TRUST:trust" = Some (VDict t) ->
     AccessInfoV3.trust_id self = Ok (dict_get t "id" VNone) /\
     AccessInfoV3.trustee_user_id self
       = get (dict_get t "trustee_user" (VDict ∅)) "id" VNone /\
     AccessInfoV3.trustor_user_id self
       = get (dict_get t "trustor_user" (VDict ∅)) "id" VNone /\
     (t !! "trustee_user" = None ->
        AccessInfoV3.trustee_user_id self = Ok VNone) /\
     (t !! "trustor_user" = None ->
        AccessInfoV3.trustor_user_id self = Ok VNone) /\
     AccessInfoV3.trust_scoped self = Ok (VBool true)) /\
  (self !! "OS-OAUTH1" = None ->
     AccessInfoV3.oauth_access_token_id self = Ok VNone /\
     AccessInfoV3.oauth_consumer_id self = Ok VNone) /\
  (forall o : gmap string value,
     self !! "OS-OAUTH1" = Some (VDict o) ->
     AccessInfoV3.oauth_access_token_id self
       = Ok (dict_get o "access_token_id" VNone) /\
     AccessInfoV3.oauth_consumer_id self
       = Ok (dict_get o "consumer_id" VNone)).
Proof.
  unfold AccessInfoV3.trust_id, AccessInfoV3.trustee_user_id,
    AccessInfoV3.trustor_user_id, AccessInfoV3.trust_scoped,
    AccessInfoV3.oauth_access_token_id, AccessInfoV3.oauth_consumer_id.
  split; [|split; [|split]].
  - intros Ht.
    assert (Hd : dict_get self "OS-TRUST:trust" (VDict ∅) = VDict ∅)
      by (unfold dict_get; rewrite Ht; reflexivity).
    rewrite Hd. apply dict_contains_false in Ht. rewrite Ht.
    repeat split.
  - intros t Ht.
    assert (Hd : dict_get self "OS-TRUST:trust" (VDict ∅) = VDict t)
      by (unfold dict_get; rewrite Ht; reflexivity).
    assert (Hc : dict_contains "OS-TRUST:trust" self = true)
      by (apply dict_contains_true; rewrite Ht; eauto).
    rewrite Hd, Hc. simpl. unfold dict_get.
    split; [reflexivity|]. split; [reflexivity|]. split; [reflexivity|].
    split; [intros ->; reflexivity|]. split; [intros ->; reflexivity|].
    reflexivity.
  - intros Ho. rewrite !(get_missing_object _ _ _ Ho). split; reflexivity.
  - intros o Ho. unfold dict_get at 1 3. rewrite Ho. split; reflexivity.
Qed.

Lemma V3_trust_oauth_witness :
  Fixture.v3_scoped !! "OS-TRUST:trust" = None /\
  AccessInfoV3.trust_id Fixture.v3_scoped = Ok VNone /\
  AccessInfoV3.trustee_user_id Fixture.v3_scoped = Ok VNone /\
  AccessInfoV3.trustor_user_id Fixture.v3_scoped = Ok VNone /\
  AccessInfoV3.trust_scoped Fixture.v3_scoped = Ok (VBool false).
Proof.
  assert (Ht : Fixture.v3_scoped !! "OS-TRUST:trust" = None)
    by (vm_compute; reflexivity).
  split; [exact Ht|].
  exact (proj1 (V3_trust_oauth Fixture.v3_scoped) Ht).
Defined.

Example v3_delegated_trust :
  AccessInfoV3.trust_id Fixture.v3_delegated = Ok (VStr "tr1") /\
  AccessInfoV3.trustee_user_id Fixture.v3_delegated = Ok (VStr "u2") /\
  AccessInfoV3.trustor_user_id Fixture.v3_delegated = Ok (VStr "u9") /\
  AccessInfoV3.oauth_consumer_id Fixture.v3_delegated = Ok (VStr "c1").
Proof. repeat split; vm_compute; reflexivity. Qed.

(** ** User name and the V2 project domain *)

(** X15: on a V2 token, [username] is the [name] entry of [user] whenever
    that key is present, whatever its value, else the [username] entry,
    else [None]; without a [user] key it raises [KeyError].  On a V3
    token there is no fallback: a [user] without [name] raises
    [KeyError] even when it has a [username]. *)
Theorem username_fallback (self : gmap string value) :
  (self !! "user" = None ->
     AccessInfoV2.username self = Raise (KeyError (VStr "user")) /\
     AccessInfoV3.username self = Raise (KeyError (VStr "user"))) /\
  (forall u : gmap string value,
     self !! "user" = Some (VDict u) ->
     AccessInfoV2.username self =
       Ok (match u !! "name" with
           | Some v => v
           | None => dict_get u "username" VNone
           end) /\
     (forall v, u !! "name" = Some v -> AccessInfoV3.username self = Ok v) /\
     (u !! "name" = None ->
        AccessInfoV3.username self = Raise (KeyError (VStr "name")))).
Proof.
  unfold AccessInfoV2.username, AccessInfoV3.username.
  split.
  - intros Hu. rewrite (dict_getitem_None _ _ Hu). split; reflexivity.
  - intros u Hu. rewrite (dict_getitem_Some _ _ _ Hu). simpl.
    split; [reflexivity|]. split.
    + intros v Hv. apply dict_getitem_Some, Hv.
    + intros Hv. apply dict_getitem_None, Hv.
Qed.

Lemma username_fallback_witness :
  let self := Fixture.dict [("user", Fixture.obj [("username", VStr "al")])] in
  self !! "user" = Some (Fixture.obj [("username", VStr "al")]) /\
  AccessInfoV2.username self = Ok (VStr "al") /\
  AccessInfoV3.username self = Raise (KeyError (VStr "name")).
Proof.
  intros self.
  assert (Hu : self !! "user"
               = Some (VDict (Fixture.dict [("username", VStr "al")])))
    by (vm_compute; reflexivity).
  split; [exact Hu|].
  destruct (proj2 (username_fallback self) _ Hu) as (H2 & _ & H3).
  split.
  - rewrite H2. vm_compute. reflexivity.
  - apply H3. vm_compute. reflexivity.
Defined.

(** X16: on a V2 token, [project_domain_id] is [default] exactly when
    [project_id] returns a true value, and then [project_domain_name] is
    [Default]; when [project_id] returns [None] or another false value
    both are [None]; when [project_id] raises, both raise the same
    exception. *)
Theorem V2_project_domain (self : gmap string value) :
  (AccessInfoV2.project_domain_id self = Ok (VStr "default") <->
   exists pid, AccessInfoV2.project_id self = Ok pid /\ truthy pid = true) /\
  (AccessInfoV2.project_domain_id self = Ok (VStr "default") <->
   AccessInfoV2.project_domain_name self = Ok (VStr "Default")) /\
  (forall pid,
     AccessInfoV2.project_id self = Ok pid -> truthy pid = false ->
     AccessInfoV2.project_domain_id self = Ok VNone /\
     AccessInfoV2.project_domain_name self = Ok VNone) /\
  (forall e,
     AccessInfoV2.project_id self = Raise e ->
     AccessInfoV2.project_domain_id self = Raise e /\
     AccessInfoV2.project_domain_name self = Raise e).
Proof.
  unfold AccessInfoV2.project_domain_id, AccessInfoV2.project_domain_name.
  destruct (AccessInfoV2.project_id self) as [pid|e]; simpl.
  - destruct (truthy pid) eqn:Ht.
    + split; [|split; [|split]].
      * split; [intros _; exists pid; split; reflexivity || exact Ht
               |reflexivity].
      * split; reflexivity.
      * intros pid' Hp Hf. injection Hp as <-. congruence.
      * discriminate.
    + split; [|split; [|split]].
      * split; [discriminate|].
        intros (pid' & Hp & Hf). injection Hp as <-. congruence.
      * split; discriminate.
      * intros _ _ _. split; reflexivity.
      * discriminate.
  - split; [|split; [|split]].
    + split; [discriminate|]. intros (pid & Hp & _). discriminate.
    + split; discriminate.
    + discriminate.
    + intros e' He. injection He as <-. split; reflexivity.
Qed.

Lemma V2_project_domain_witness :
  AccessInfoV2.project_id Fixture.v2_empty_tenant = Ok VNone /\
  AccessInfoV2.project_domain_id Fixture.v2_empty_tenant = Ok VNone /\
  AccessInfoV2.project_domain_name Fixture.v2_empty_tenant = Ok VNone.
Proof.
  assert (Hp : AccessInfoV2.project_id Fixture.v2_empty_tenant = Ok VNone)
    by (vm_compute; reflexivity).
  split; [exact Hp|].
  exact (proj1 (proj2 (proj2 (V2_project_domain Fixture.v2_empty_tenant)))
           VNone Hp eq_refl).
Defined.

(** X17: a V2 token whose [token] object has no [tenant] key is neither
    [project_scoped] nor [scoped], even when the legacy fields give it a
    project: with only [token.tenantId] set to a true value,
    [project_id] is that value and [project_domain_id] is [default]. *)
Theorem V2_legacy_project_not_scoped (self token : gmap string value) :
  self !! "token" = Some (VDict token) ->
  token !! "tenant" = None ->
  AccessInfoV2.project_scoped self = Ok (VBool false) /\
  AccessInfoV2.scoped self = Ok (VBool false) /\
  (forall v,
     token !! "tenantId" = Some v -> truthy v = true ->
     user_lacks self "tenantId" ->
     AccessInfoV2.project_id self = Ok v /\
     AccessInfoV2.project_domain_id self = Ok (VStr "default")).
Proof.
  intros Htok Ht.
  assert (Hn : bool_decide (is_Some (token !! "tenant")) = false).
  { apply bool_decide_eq_false_2. rewrite Ht. intros [? ?]. discriminate. }
  split; [|split].
  - unfold AccessInfoV2.project_scoped.
    rewrite (dict_getitem_Some _ _ _ Htok). simpl. rewrite Hn. reflexivity.
  - unfold AccessInfoV2.scoped, dict_contains.
    unfold dict_getitem at 1.
    destruct (self !! "serviceCatalog") as [c|] eqn:Hs.
    + rewrite bool_decide_eq_true_2 by eauto. simpl.
      destruct (truthy c); [|reflexivity].
      rewrite (dict_getitem_Some _ _ _ Htok). simpl. rewrite Hn. reflexivity.
    + rewrite bool_decide_eq_false_2; [reflexivity|].
      intros [? ?]. discriminate.
  - intros v Hv Hv' Hu.
    assert (Hp : AccessInfoV2.project_id self = Ok v).
    { rewrite (project_id_tier3 self token Htok Ht Hu).
      unfold dict_get. rewrite Hv. reflexivity. }
    split; [exact Hp|].
    unfold AccessInfoV2.project_domain_id. rewrite Hp. simpl.
    rewrite Hv'. reflexivity.
Qed.

Lemma V2_legacy_project_not_scoped_witness :
  Fixture.v2_tenantId_only !! "token"
    = Some (VDict Fixture.v2_tenantId_token) /\
  Fixture.v2_tenantId_token !! "tenant" = None /\
  AccessInfoV2.project_scoped Fixture.v2_tenantId_only = Ok (VBool false) /\
  AccessInfoV2.project_id Fixture.v2_tenantId_only = Ok (VStr "p1") /\
  AccessInfoV2.project_domain_id Fixture.v2_tenantId_only
    = Ok (VStr "default").
Proof.
  assert (Htok : Fixture.v2_tenantId_only !! "token"
                 = Some (VDict Fixture.v2_tenantId_token))
    by (vm_compute; reflexivity).
  assert (Ht : Fixture.v2_tenantId_token !! "tenant" = None)
    by (vm_compute; reflexivity).
  split; [exact Htok|]. split; [exact Ht|].
  destruct (V2_legacy_project_not_scoped Fixture.v2_tenantId_only
              Fixture.v2_tenantId_token Htok Ht) as (Hp & _ & Hl).
  split; [exact Hp|].
  apply (Hl (VStr "p1")).
  - vm_compute; reflexivity.
  - reflexivity.
  - apply v2_tenantId_only_user_lacks.
Defined.

(** ** Audit identifiers that are not a sequence *)

Section AuditFurther.
Context `{CatalogBuilder}.

Lemma audit_raises (self : instance) (ids : value) (e0 e1 : exn) :
  audit_ids_of self = Some ids ->
  getitem_int ids 0 = Raise e0 -> e0 <> IndexError ->
  getitem_int ids 1 = Raise e1 -> e1 <> IndexError ->
  AccessInfo.audit_id self = Raise e0 /\
  AccessInfo.audit_chain_id self = Raise e1 /\
  AccessInfo.initial_audit_id self = Raise e1.
Proof.
  intros Hids H0 Hn0 H1 Hn1.
  assert (Hx : forall i e, getitem_int ids i = Raise e -> e <> IndexError ->
                 except_IndexError (getitem_int ids i) (Ok VNone) = Raise e).
  { intros i e -> Hne. destruct e; try reflexivity. contradiction. }
  assert (Hboth : AccessInfo.audit_id self = Raise e0 /\
                  AccessInfo.audit_chain_id self = Raise e1).
  { unfold audit_ids_of in Hids.
    unfold AccessInfo.audit_id, AccessInfo.audit_chain_id.
    destruct (class_of self); [discriminate| |].
    - destruct (fields self !! "token") as [[| | | | |token]|] eqn:Htok;
        try discriminate.
      injection Hids as Hids.
      unfold AccessInfoV2.audit_id, AccessInfoV2.audit_chain_id.
      rewrite (dict_getitem_Some _ _ _ Htok). simpl.
      unfold dict_get in Hids. rewrite Hids.
      split; [apply (Hx 0 e0 H0 Hn0) | apply (Hx 1 e1 H1 Hn1)].
    - injection Hids as Hids.
      unfold AccessInfoV3.audit_id, AccessInfoV3.audit_chain_id.
      rewrite Hids.
      split; [apply (Hx 0 e0 H0 Hn0) | apply (Hx 1 e1 H1 Hn1)]. }
  destruct Hboth as [Ha Hc]. split; [exact Ha|]. split; [exact Hc|].
  unfold AccessInfo.initial_audit_id. rewrite Hc. reflexivity.
Qed.

(** X18: the audit accessors handle [IndexError] only.  For both
    adapters, when the [audit_ids] entry is [None], [audit_id],
    [audit_chain_id] and [initial_audit_id] raise [TypeError]; when it
    is an object they raise [KeyError] for the index they look up. *)
Theorem audit_ids_not_a_sequence (self : instance) :
  (audit_ids_of self = Some VNone ->
     AccessInfo.audit_id self = Raise TypeError /\
     AccessInfo.audit_chain_id self = Raise TypeError /\
     AccessInfo.initial_audit_id self = Raise TypeError) /\
  (forall d : gmap string value,
     audit_ids_of self = Some (VDict d) ->
     AccessInfo.audit_id self = Raise (KeyError (VInt 0)) /\
     AccessInfo.audit_chain_id self = Raise (KeyError (VInt 1)) /\
     AccessInfo.initial_audit_id self = Raise (KeyError (VInt 1))).
Proof.
  split.
  - intros Hids.
    apply (audit_raises self VNone TypeError TypeError Hids);
      try reflexivity; discriminate.
  - intros d Hids.
    apply (audit_raises self (VDict d) (KeyError (VInt 0))
             (KeyError (VInt 1)) Hids);
      try reflexivity; discriminate.
Qed.

End AuditFurther.

Lemma audit_ids_not_a_sequence_witness :
  let self := Fixture.v3_instance
                (Fixture.dict [("audit_ids", VNone)]) in
  audit_ids_of self = Some VNone /\
  AccessInfo.audit_id self = Raise TypeError /\
  AccessInfo.audit_chain_id self = Raise TypeError /\
  AccessInfo.initial_audit_id self = Raise TypeError.
Proof.
  intros self.
  assert (Hids : audit_ids_of self = Some VNone) by (vm_compute; reflexivity).
  split; [exact Hids|].
  exact (proj1 (@audit_ids_not_a_sequence Fixture.catalog self) Hids).
Defined.
